(** * bible-dot-com-scraper: the scraping pipeline of [src/main.py]

    A shallow embedding of the functions of [src/main.py] that resolve the
    catalogue of a Bible version, build the per-chapter request, fetch it
    with retries, extract the verses of a chapter and accumulate a book,
    followed by the properties of the specification that concern them.

    Python values are modelled as follows.
    - A decoded JSON document is a [json] tree; Python's [None] is [JNull].
      JSON numbers are rationals (NaN and the infinities that Python's
      decoder also accepts are left out), objects are association lists in
      insertion order, as a Python dict iterates.
    - A [str] is a [string] whose characters are code points below 256.
    - A Python [int] is a [Z].
    - A call that can raise returns a [py_result].
    - The remote site and the clock are an explicit world: the replies of
      the site are an oracle indexed by the number of requests sent so far,
      and every request and every [time.sleep] is logged. What is printed is
      left out. *)

From Stdlib Require Import ZArith QArith String Ascii DecimalString Lia Sorted.
From Stdlib Require DecimalZ.
From stdpp Require Import base list strings.

Open Scope Z_scope.
Set Warnings "-register-all".
Set Default Proof Using "Type".

(** ** Python results and exceptions *)

Inductive exn :=
  | AttributeError | TypeError | KeyError | ValueError
  | RuntimeError | JSONDecodeError | RequestException.

Inductive py_result (A : Type) :=
  | Returned (a : A)
  | Raised (e : exn).
Arguments Returned {A} a.
Arguments Raised {A} e.

#[global] Instance py_result_ret : MRet py_result := fun A a => Returned a.
#[global] Instance py_result_bind : MBind py_result := fun A B f r =>
  match r with
  | Returned a => f a
  | Raised e => Raised e
  end.

#[global] Instance py_result_fmap : FMap py_result := λ A B f r,
  match r with
  | Returned a => Returned (f a)
  | Raised e => Raised e
  end.

(** [for x in xs: acc = body(x, acc)], stopping at the first exception. *)
Fixpoint py_for {A S : Type} (xs : list A) (body : A → S → py_result S)
    (acc : S) : py_result S :=
  match xs with
  | [] => Returned acc
  | x :: xs' => acc' ← body x acc; py_for xs' body acc'
  end.

(** ** Strings *)

Module PyStr.

Definition code (c : ascii) : N := N_of_ascii c.

(** [str.isspace] on the code points below 256. *)
Definition isspace (c : ascii) : bool :=
  let n := code c in
  ((9 <=? n) && (n <=? 13) || (28 <=? n) && (n <=? 32)
   || (n =? 133) || (n =? 160))%N.

(** The decimal digits ['0'] to ['9']. *)
Definition isdecimal (c : ascii) : bool :=
  let n := code c in ((48 <=? n) && (n <=? 57))%N.

(** [str.isdigit] on one character: the decimal digits and the
    superscripts U+00B2, U+00B3 and U+00B9. *)
Definition isdigit_char (c : ascii) : bool :=
  let n := code c in
  (isdecimal c || (n =? 178) || (n =? 179) || (n =? 185))%N.

Fixpoint all (p : ascii → bool) (s : string) : bool :=
  match s with
  | EmptyString => true
  | String c s' => p c && all p s'
  end.

Definition nonempty (s : string) : bool :=
  match s with EmptyString => false | String _ _ => true end.

(** [s.isdigit()]: false on the empty string. *)
Definition isdigit (s : string) : bool := nonempty s && all isdigit_char s.

Fixpoint lstrip (s : string) : string :=
  match s with
  | EmptyString => EmptyString
  | String c s' => if isspace c then lstrip s' else s
  end.

Fixpoint rstrip (s : string) : string :=
  match s with
  | EmptyString => EmptyString
  | String c s' =>
      let r := rstrip s' in
      if isspace c && negb (nonempty r) then EmptyString else String c r
  end.

(** [s.strip()] *)
Definition strip (s : string) : string := rstrip (lstrip s).

Definition digit_value (c : ascii) : Z := Z.of_N (code c) - 48.

Fixpoint int_digits (acc : Z) (s : string) : py_result Z :=
  match s with
  | EmptyString => Returned acc
  | String c s' =>
      if isdecimal c then int_digits (10 * acc + digit_value c) s'
      else Raised ValueError
  end.

(** [sys.int_max_str_digits], at its default. *)
Definition max_str_digits : Z := 4300.

(** [int(s)] for the strings that reach it here, which hold no sign, no
    blank and no underscore: a non-empty run of decimal digits is read in
    base ten, anything else is a [ValueError], and so is a run of more than
    [max_str_digits] digits. *)
Definition int (s : string) : py_result Z :=
  if nonempty s
  then if max_str_digits <? Z.of_nat (String.length s)
       then Raised ValueError
       else int_digits 0 s
  else Raised ValueError.

(** [f"{n}"] for an [int]. *)
Definition of_int (n : Z) : string := NilZero.string_of_int (Z.to_int n).

(** [sep.join(parts)] *)
Fixpoint join (sep : string) (parts : list string) : string :=
  match parts with
  | [] => EmptyString
  | [p] => p
  | p :: ps => p +:+ sep +:+ join sep ps
  end.

(** The characters of a string, as iterating over it yields them. *)
Fixpoint chars (s : string) : list string :=
  match s with
  | EmptyString => []
  | String c s' => String c EmptyString :: chars s'
  end.

End PyStr.

(** ** Decoded JSON documents *)

Inductive json :=
  | JNull
  | JBool (b : bool)
  | JNum (q : Q)
  | JStr (s : string)
  | JArr (items : list json)
  | JObj (fields : list (string * json)).

(** Python truthiness, as [if not data] and [if found] test it. *)
Definition truthy (v : json) : bool :=
  match v with
  | JNull => false
  | JBool b => b
  | JNum q => negb (Qnum q =? 0)
  | JStr s => PyStr.nonempty s
  | JArr items => match items with [] => false | _ => true end
  | JObj fields => match fields with [] => false | _ => true end
  end.

Fixpoint assoc (k : string) (fields : list (string * json)) : option json :=
  match fields with
  | [] => None
  | (k', v) :: rest => if String.eqb k k' then Some v else assoc k rest
  end.

(** [d.get(k, dflt)]: only a dict has the method. *)
Definition py_get (d : json) (k : string) (dflt : json) : py_result json :=
  match d with
  | JObj fields => Returned (default dflt (assoc k fields))
  | _ => Raised AttributeError
  end.

(** [d[k]] with a string key: a missing key of a dict is a [KeyError];
    no other value can be indexed by a string. *)
Definition py_getitem (d : json) (k : string) : py_result json :=
  match d with
  | JObj fields =>
      match assoc k fields with
      | Some v => Returned v
      | None => Raised KeyError
      end
  | _ => Raised TypeError
  end.

(** The items [for x in v] runs through: the elements of a list, the keys
    of a dict, the characters of a string. *)
Definition py_iter (v : json) : py_result (list json) :=
  match v with
  | JArr items => Returned items
  | JObj fields => Returned (map (λ kv, JStr kv.1) fields)
  | JStr s => Returned (map JStr (PyStr.chars s))
  | _ => Raised TypeError
  end.

(** [v.strip()]: only a string has the method. *)
Definition py_strip (v : json) : py_result string :=
  match v with
  | JStr s => Returned (PyStr.strip s)
  | _ => Raised AttributeError
  end.

(** ** The world: remote site, clock *)

(** What one [requests.get] comes back with: a transport-level failure
    ([requests.RequestException]) or a reply with its status code and its
    body, decoded when it is JSON and [None] when [resp.json()] raises
    [JSONDecodeError]. *)
Inductive response :=
  | NetworkError
  | Reply (status_code : Z) (body : option json).

(** ** Catalog resolver: [fetch_books_and_chapters] *)

Record book_meta := {
  book_code : json;
  book_name : json;
  chapters : list Z;
}.

(** Lines 236-239, the body of [for ch in book.get("chapters", [])]: the
    chapter number the entry contributes, if any. *)
Definition chapter_number (ch : json) : py_result (option Z) :=
  human ← py_get ch "human" (JStr "");
  ch_num ← py_strip human;
  canonical ← py_get ch "canonical" (JBool true);
  if truthy canonical && PyStr.isdigit ch_num
  then n ← PyStr.int ch_num; mret (Some n)
  else mret None.

(** Lines 234-239: the chapter list of one book. *)
Definition book_chapters (book : json) : py_result (list Z) :=
  entries ← (py_get book "chapters" (JArr []) ≫= py_iter);
  py_for entries
    (λ ch chapters,
       n ← chapter_number ch;
       mret (match n with Some n => chapters ++ [n] | None => chapters end))
    [].

(** Lines 233-247, the body of [for book in books]. *)
Definition book_entry (book : json) : py_result book_meta :=
  chapters ← book_chapters book;
  usfm ← py_getitem book "usfm";
  human ← py_getitem book "human";
  mret {| book_code := usfm; book_name := human; chapters := chapters |}.

(** Lines 230-249: from the decoded metadata document to the result. *)
Definition books_and_chapters (data : json) : py_result (list book_meta) :=
  books ← (py_get data "books" (JArr []) ≫= py_iter);
  py_for books (λ book result, b ← book_entry book; mret (result ++ [b])) [].

(** [fetch_books_and_chapters], given what the single request to the
    metadata endpoint came back with. *)
Definition fetch_books_and_chapters (r : response)
    : py_result (list book_meta) :=
  match r with
  | NetworkError => Raised RequestException
  | Reply status_code body =>
      if negb (status_code =? 200) then Raised RuntimeError
      else match body with
           | None => Raised JSONDecodeError
           | Some data => books_and_chapters data
           end
  end.

(** ** Request builder: [construct_json_url] *)

(** The URL and the query parameters. Lines 94-109 hold three f-strings and
    a [return]: nothing in them raises. *)
Definition target : Type := string * list (string * string).

Definition construct_json_url (build_id locale version_id book : string)
    (chapter : Z) (version_code route : string) : py_result target :=
  let book_ch := book +:+ "." +:+ PyStr.of_int chapter +:+ "." +:+ version_code in
  let url := "https://www.bible.com/_next/data/" +:+ build_id +:+ "/"
             +:+ locale +:+ "/" +:+ route +:+ "/" +:+ version_id +:+ "/"
             +:+ book_ch +:+ ".json" in
  let params := [("versionId", version_id); ("usfm", book_ch)] in
  Returned (url, params).

(** ** Output and state monad of the world

    A computation starts when [n] requests have been sent; it gives its
    value, the number of requests sent when it ends and the events it
    produced, oldest first. *)

Inductive event :=
  | EvGet (url : string) (params : list (string * string)) (r : response)
  | EvSleep (secs : Q).

Definition M (A : Type) : Type := nat → A * nat * list event.

#[global] Instance M_ret : MRet M := λ A a n, (a, n, []).
#[global] Instance M_bind : MBind M := λ A B f m n,
  let '(a, n1, evs1) := m n in
  let '(b, n2, evs2) := f a n1 in
  (b, n2, evs1 ++ evs2).

Definition value {A} (r : A * nat * list event) : A := r.1.1.
Definition sent {A} (r : A * nat * list event) : nat := r.1.2.
Definition events {A} (r : A * nat * list event) : list event := r.2.

(** [time.sleep(secs)] *)
Definition sleep (secs : Q) : M unit := λ n, (tt, n, [EvSleep secs]).

(** [for i in range(n)] *)
Definition py_range (n : Z) : list Z := map Z.of_nat (seq 0 (Z.to_nat n)).

Definition is_get (e : event) : bool :=
  match e with EvGet _ _ _ => true | EvSleep _ => false end.

(** The decoded documents the site delivered, in the order of the log. *)
Definition delivered (evs : list event) : list json :=
  omap (λ e, match e with EvGet _ _ (Reply _ (Some d)) => Some d | _ => None end) evs.

Section World.

(** The reply of the remote site to the [n]-th request of the run. *)
Variable net : nat → response.

(** [requests.get(url, params=params, ...)] *)
Definition http_get (url : string) (params : list (string * string))
    : M response :=
  λ n, (net n, S n, [EvGet url params (net n)]).

(** *** Resilient fetcher: [fetch_json_with_retries]

    Lines 128-171; [attempts] is what is left of [range(retries)]. An
    exhausted loop returns [None]. *)
Fixpoint fetch_attempts (url : string) (params : list (string * string))
    (backoff : Z) (attempts : list Z) : M json :=
  match attempts with
  | [] => mret JNull
  | attempt :: rest =>
      r ← http_get url params;
      match r with
      | Reply _ (Some data) => mret data
      | Reply _ None =>
          let wait := backoff * (attempt + 1) in
          _ ← sleep (inject_Z wait);
          fetch_attempts url params backoff rest
      | NetworkError =>
          _ ← sleep (inject_Z backoff);
          fetch_attempts url params backoff rest
      end
  end.

Definition fetch_json_with_retries (url : string)
    (params : list (string * string)) (retries backoff : Z) : M json :=
  fetch_attempts url params backoff (py_range retries).

End World.

(** ** Content extractor, first stage: locating the fragment *)

Definition is_str (v : json) : bool :=
  match v with JStr _ => true | _ => false end.

(** Lines 316-330. *)
Fixpoint find_content (d : json) : json :=
  match d with
  | JObj fields =>
      (fix items (fields : list (string * json)) : json :=
         match fields with
         | [] => JNull
         | (k, v) :: rest =>
             if String.eqb k "content" && is_str v then v
             else let found := find_content v in
                  if truthy found then found else items rest
         end) fields
  | JArr l =>
      (fix elements (l : list json) : json :=
         match l with
         | [] => JNull
         | item :: rest =>
             let found := find_content item in
             if truthy found then found else elements rest
         end) l
  | _ => JNull
  end.

(** Lines 308-335: the value of [html_content] when the [try] block is
    left. Any exception inside it makes it [None]. *)
Definition locate_html_content (data : json) : json :=
  match
    pageProps ← py_get data "pageProps" (JObj []);
    chapterInfo ← py_get pageProps "chapterInfo" (JObj []);
    content ← py_get chapterInfo "content" JNull;
    mret (if truthy content then content else find_content data)
  with
  | Returned html_content => html_content
  | Raised _ => JNull
  end.

(** ** Content extractor, second stage: [extract_verses_from_chapter_html]

    The parse tree BeautifulSoup builds. A [Tag] carries its name and the
    list its [class] attribute is split into; comments and the like carry
    no text and are left out. The tree is mutated while the verses are
    read: [decompose] takes an element out of its parent and empties it,
    and the Python object stays in the list [select] returned earlier. An
    element is therefore identified by its path in the tree as parsed, and
    a decomposed element leaves [Decomposed] in its place, so that the paths
    of the others do not move. *)

Inductive node :=
  | Text (s : string)
  | Tag (name : string) (classes : list string) (contents : list node)
  | Decomposed.

Definition path : Type := list nat.

(** A compound selector [name.class], as in ["span.verse"]. *)
Definition selector : Type := string * string.
Definition span_verse : selector := ("span", "verse").
Definition span_note : selector := ("span", "note").
Definition span_label : selector := ("span", "label").
Definition span_content : selector := ("span", "content").

Definition matches (sel : selector) (n : node) : bool :=
  match n with
  | Tag name classes _ => String.eqb name sel.1 && existsb (String.eqb sel.2) classes
  | _ => false
  end.

(** [n.select(sel)]: the descendants of [n] that match, in document order,
    each by its path below [n]. *)
Fixpoint select (sel : selector) (n : node) : list path :=
  match n with
  | Tag _ _ contents =>
      (fix children (i : nat) (cs : list node) : list path :=
         match cs with
         | [] => []
         | c :: cs' =>
             (if matches sel c then [[i]] else [])
             ++ map (cons i) (select sel c) ++ children (S i) cs'
         end) 0%nat contents
  | _ => []
  end.

(** The element at a path, as the Python object is now: one that was
    decomposed, alone or with an ancestor, is empty. *)
Fixpoint subtree (p : path) (n : node) : node :=
  match p with
  | [] => n
  | i :: p' =>
      match n with
      | Tag _ _ contents =>
          match contents !! i with
          | Some c => subtree p' c
          | None => Decomposed
          end
      | _ => Decomposed
      end
  end.

(** [element.decompose()] for the element at path [p]. *)
Fixpoint decompose (p : path) (n : node) : node :=
  match p with
  | [] => Decomposed
  | i :: p' =>
      match n with
      | Tag name classes contents => Tag name classes (alter (decompose p') i contents)
      | _ => n
      end
  end.

(** [v.select_one(sel)] *)
Definition select_one (sel : selector) (v : node) : option node :=
  (λ p, subtree p v) <$> head (select sel v).

(** The strings below a node, in document order. *)
Fixpoint all_strings (n : node) : list string :=
  match n with
  | Text s => [s]
  | Tag _ _ contents => flat_map all_strings contents
  | Decomposed => []
  end.

(** [n.get_text(separator=sep, strip=True)] *)
Definition get_text_strip (sep : string) (n : node) : string :=
  PyStr.join sep (List.filter PyStr.nonempty (map PyStr.strip (all_strings n))).

(** [n.text] *)
Definition text_of (n : node) : string := PyStr.join "" (all_strings n).

Record verse_record := {
  verse : option string;
  text : string;
}.

(** Lines 181-182: every footnote below the verse at [v] is decomposed, in
    the order [v.select("span.note")] lists them. *)
Definition decompose_notes (v : path) (soup : node) : node :=
  foldl (λ soup note, decompose (v ++ note) soup) soup (select span_note (subtree v soup)).

(** Lines 183-194, on the verse element once its footnotes are gone. *)
Definition read_verse (v : node) : option verse_record :=
  let label_tag := select_one span_label v in
  let content_tag := select_one span_content v in
  let text :=
    match content_tag with
    | None => get_text_strip " " v
    | Some content_tag => get_text_strip " " content_tag
    end in
  let num := (λ label_tag, PyStr.strip (text_of label_tag)) <$> label_tag in
  if PyStr.nonempty text then Some {| verse := num; text := text |} else None.

(** Lines 179-194: the loop over the verse elements selected at the start. *)
Fixpoint verses_loop (vs : list path) (soup : node) (verses : list verse_record)
    : list verse_record * node :=
  match vs with
  | [] => (verses, soup)
  | v :: vs' =>
      let soup := decompose_notes v soup in
      let verses :=
        match read_verse (subtree v soup) with
        | Some r => verses ++ [r]
        | None => verses
        end in
      verses_loop vs' soup verses
  end.

(** The BeautifulSoup object over the top-level nodes of a fragment. *)
Definition document (contents : list node) : node := Tag "[document]" [] contents.

(** Lines 177-195, from the parsed fragment on. *)
Definition extract_verses (contents : list node) : list verse_record :=
  let soup := document contents in
  (verses_loop (select span_verse soup) soup []).1.

Definition span (cls : string) (contents : list node) : node := Tag "span" [cls] contents.

(** ** Book accumulator: the chapter loop of [scrape_version] *)

Record chapter_entry := {
  entry_book : string;
  entry_chapter : Z;
  entry_verses : list verse_record;
  raw_json_url : string;
}.

(** The two lists a book is accumulated in. *)
Record book_state := {
  book_out : list chapter_entry;
  raw_html_accumulator : list json;
}.

(** How [for chapter in valid_chapters] is left before its list is
    exhausted: at [break], or by an exception that nothing catches and that
    ends the run. *)
Inductive loop_exit :=
  | Break
  | Uncaught (e : exn).

Section Accumulator.

Variable net : nat → response.

(** [BeautifulSoup(html_content, "html.parser")]: the parser of the
    library, which gives the top-level nodes of the fragment or raises. *)
Variable BeautifulSoup : json → py_result (list node).

Variables build_id locale version_id version_code route book : string.
Variable sleep_between : Q.

(** Lines 174-195. *)
Definition extract_verses_from_chapter_html (html_content : json)
    : py_result (list verse_record) :=
  extract_verses <$> BeautifulSoup html_content.

Definition archive (html_content : json) (st : book_state) : book_state :=
  {| book_out := book_out st;
     raw_html_accumulator := raw_html_accumulator st ++ [html_content] |}.

Definition store (e : chapter_entry) (st : book_state) : book_state :=
  {| book_out := book_out st ++ [e];
     raw_html_accumulator := raw_html_accumulator st |}.

(** Lines 295-366, the body of [for chapter in valid_chapters]. Its value
    tells how the body is left: [None] when the loop goes on with the next
    chapter ([continue], or the end of the body), [Some Break] at [break],
    [Some (Uncaught e)] when an exception leaves the function. The
    [chapter += 1] of lines 350 and 365 rebinds a variable that the [for]
    statement assigns afresh, and has no effect. *)
Definition chapter_body (chapter : Z) (st : book_state)
    : M (option loop_exit * book_state) :=
  match construct_json_url build_id locale version_id book chapter
          version_code route with
  | Raised e => mret (Some (Uncaught e), st)
  | Returned (json_url, params) =>
      data ← fetch_json_with_retries net json_url params 3 5;
      if negb (truthy data) then
        _ ← sleep sleep_between;
        mret (None, st)
      else
        let html_content := locate_html_content data in
        if negb (truthy html_content) then mret (Some Break, st)
        else
          let st := archive html_content st in
          match extract_verses_from_chapter_html html_content with
          | Raised e => mret (Some (Uncaught e), st)
          | Returned verses =>
              match verses with
              | [] =>
                  _ ← sleep sleep_between;
                  mret (None, st)
              | _ :: _ =>
                  let st :=
                    store {| entry_book := book;
                             entry_chapter := chapter;
                             entry_verses := verses;
                             raw_json_url := json_url |} st in
                  _ ← sleep sleep_between;
                  mret (None, st)
              end
          end
  end.

(** Lines 294-366: the loop. Its value is [None] when every chapter of
    the list has had its turn. *)
Fixpoint chapters_loop (valid_chapters : list Z) (st : book_state)
    : M (option loop_exit * book_state) :=
  match valid_chapters with
  | [] => mret (None, st)
  | chapter :: rest =>
      r ← chapter_body chapter st;
      match r with
      | (None, st) => chapters_loop rest st
      | (Some exit, st) => mret (Some exit, st)
      end
  end.

End Accumulator.

(** ** Vocabulary of the properties *)

(** *** Catalog *)

(** The chapter list the specification promises: positive and strictly
    increasing. *)
Definition increasing_positive (l : list Z) : Prop :=
  Forall (λ n, 0 < n) l ∧ StronglySorted Z.lt l.

(** The stripped label of a chapter entry of the metadata, empty when the
    entry has none. *)
Definition label_of (ch : json) : string :=
  match ch with
  | JObj fields =>
      match assoc "human" fields with
      | Some (JStr s) => PyStr.strip s
      | _ => ""
      end
  | _ => ""
  end.

(** The entry is canonical: its flag is truthy, or it has no flag. *)
Definition flagged_canonical (ch : json) : bool :=
  match ch with
  | JObj fields =>
      match assoc "canonical" fields with
      | Some flag => truthy flag
      | None => true
      end
  | _ => false
  end.

(** The entries the resolver keeps. *)
Definition kept (ch : json) : bool :=
  flagged_canonical ch && PyStr.isdigit (label_of ch).

(** The number a string of decimal digits denotes. *)
Fixpoint decimal_value_from (acc : Z) (s : string) : Z :=
  match s with
  | EmptyString => acc
  | String c s' => decimal_value_from (10 * acc + PyStr.digit_value c) s'
  end.
Definition decimal_value (s : string) : Z := decimal_value_from 0 s.

(** A non-empty string of the decimal digits ['0'] to ['9']. *)
Definition digit_string (s : string) : bool :=
  PyStr.nonempty s && PyStr.all PyStr.isdecimal s.

(** The chapter list of an entry of the result, read off the book of the
    metadata it was made from: the values of the entries kept, in the order
    of the source. *)
Definition resolved_from (book : json) (b : book_meta) : Prop :=
  ∃ entries,
    (py_get book "chapters" (JArr []) ≫= py_iter) = Returned entries
    ∧ chapters b = map (λ ch, decimal_value (label_of ch)) (List.filter kept entries).

(** *** Fetcher and accumulator *)

(** The reasons the specification gives a failed fetch. *)
Inductive failure_reason := network | unparsable.

(** The reply carries no decoded document. *)
Definition no_json (r : response) : bool :=
  match r with Reply _ (Some _) => false | _ => true end.

(** The fragment a delivered document contributes to the raw archive, by
    the tests of the code (lines 299, 337 and 344): the located fragment,
    when the document is truthy and the fragment is truthy. *)
Definition fragment_of (data : json) : option json :=
  if truthy data && truthy (locate_html_content data)
  then Some (locate_html_content data) else None.

(** [ContentAbsent], as the specification states it: the locator finds no
    fragment in the document and returns [None]. *)
Definition content_absent (data : json) : Prop :=
  locate_html_content data = JNull.

(** The fragment the specification has archived for a delivered document:
    the one the locator returns, whenever it is not [None]. *)
Definition non_null_fragment_of (data : json) : option json :=
  match locate_html_content data with
  | JNull => None
  | fragment => Some fragment
  end.

(** A site whose documents hold an empty string under [content]. *)
Definition blank_site (n : nat) : response :=
  Reply 200 (Some (JObj [("content", JStr "")])).

(** A run that takes place after the events [evs]. *)
Definition after {A} (evs : list event) (r : A * nat * list event)
    : A * nat * list event :=
  (value r, sent r, evs ++ events r).

(** *** Extractor *)

(** The matching descendants of the children [cs], the first of which has
    index [i]: the loop inside [select]. *)
Fixpoint select_from (sel : selector) (i : nat) (cs : list node) : list path :=
  match cs with
  | [] => []
  | c :: cs' =>
      (if matches sel c then [[i]] else [])
      ++ map (cons i) (select sel c) ++ select_from sel (S i) cs'
  end.

(** The parse tree with every footnote that lies inside a verse container
    taken out; [in_verse] tells whether [n] lies inside one. *)
Fixpoint without_footnotes (in_verse : bool) (n : node) : node :=
  match n with
  | Tag name classes contents =>
      if in_verse && matches span_note n then Decomposed
      else Tag name classes
             (map (without_footnotes (in_verse || matches span_verse n)) contents)
  | _ => n
  end.

(** A node with the footnotes below it taken out. *)
Definition without_notes_below (n : node) : node :=
  match n with
  | Tag name classes contents => Tag name classes (map (without_footnotes true) contents)
  | _ => n
  end.

(** The state in which the loop finds a node: untouched outside a verse
    container, without its footnotes inside one. *)
Definition found (in_verse : bool) (n : node) : node :=
  if in_verse then without_footnotes true n else n.

(** The records of the verse containers at and below [n], read off the tree
    in one descent. *)
Fixpoint verses_below (in_verse : bool) (n : node) : list verse_record :=
  match n with
  | Tag name classes contents =>
      if in_verse && matches span_note n then []
      else
        (if matches span_verse n
         then option_list (read_verse (without_notes_below n))
         else [])
        ++ flat_map (verses_below (in_verse || matches span_verse n)) contents
  | _ => []
  end.

(** *** Sample data *)

(** A metadata document whose chapters are listed out of order and from 0. *)
Definition unordered_catalog : json :=
  JObj [("books", JArr [JObj [
    ("usfm", JStr "PSA"); ("human", JStr "Psalms");
    ("chapters", JArr [JObj [("human", JStr "2")];
                       JObj [("human", JStr "1"); ("canonical", JBool true)];
                       JObj [("human", JStr "0")]])]])].

(** A metadata document with one book. *)
Definition genesis_catalog : json :=
  JObj [("books", JArr [JObj [
    ("usfm", JStr "GEN"); ("human", JStr "Genesis");
    ("chapters", JArr [JObj [("human", JStr "Intro"); ("canonical", JBool false)];
                       JObj [("human", JStr " 1 "); ("canonical", JBool true)];
                       JObj [("human", JStr "02")];
                       JObj [("human", JStr "3"); ("canonical", JBool false)]])]])].

(** A site that answers twice with a page that is not JSON, then with a
    document. *)
Definition third_time_lucky (n : nat) : response :=
  match n with
  | 0%nat | 1%nat => Reply 200 None
  | _ => Reply 200 (Some (JObj [("attempt", JNum 3)]))
  end.

(** A site that cannot be reached, and one that only serves an error page. *)
Definition unreachable (n : nat) : response := NetworkError.
Definition error_page (n : nat) : response := Reply 503 None.

(** A stand-in for the parser in examples: a string is one verse container
    with that string as its content; anything else is refused. *)
Definition one_verse_parser (html_content : json) : py_result (list node) :=
  match html_content with
  | JStr s => Returned [span "verse" [span "label" [Text "1"]; span "content" [Text s]]]
  | _ => Raised TypeError
  end.

Definition chapter_document (html : string) : response :=
  Reply 200 (Some (JObj [("pageProps", JObj [("chapterInfo", JObj [("content", JStr html)])])])).

(** The scenario of the specification: the first two chapters of Genesis
    come with a fragment, the third with a document that has no [content]
    anywhere; whatever is asked after that would come with a fragment. *)
Definition genesis_site (n : nat) : response :=
  match n with
  | 0%nat => chapter_document "In the beginning"
  | 1%nat => chapter_document "Thus the heavens"
  | 2%nat => Reply 200 (Some (JObj [("pageProps", JObj [("notFound", JBool true)])]))
  | _ => chapter_document "Now the serpent"
  end.

(** A site whose first chapter cannot be fetched, whose second is an empty
    document and whose third has a fragment without any verse text. *)
Definition patchy_site (n : nat) : response :=
  match n with
  | 0%nat | 1%nat | 2%nat => NetworkError
  | 3%nat => Reply 200 (Some (JObj []))
  | 4%nat => chapter_document "   "
  | _ => chapter_document "And God said"
  end.

Definition empty_book : book_state := {| book_out := []; raw_html_accumulator := [] |}.

(** The chapter loop of the examples. *)
Definition demo_loop (site : nat → response)
    : list Z → book_state → M (option loop_exit * book_state) :=
  chapters_loop site one_verse_parser "b1" "en-GB" "144" "MBB05" "bible" "GEN" (4 # 5).

(** Two fragments that differ in a footnote only. *)
Definition fragment_with_note (note_text : string) : list node :=
  [Tag "div" ["chapter"]
     [span "verse" [span "label" [Text "1"];
                    span "content" [Text "In the beginning"];
                    span "note" [span "content" [Text note_text]]]]].

(** ** Induction over trees

    The induction principles that reach the elements of the lists nested in
    [json] and [node]. *)

Section JsonInduction.

Variable P : json → Prop.
Hypothesis P_JNull : P JNull.
Hypothesis P_JBool : ∀ b, P (JBool b).
Hypothesis P_JNum : ∀ q, P (JNum q).
Hypothesis P_JStr : ∀ s, P (JStr s).
Hypothesis P_JArr : ∀ items, Forall P items → P (JArr items).
Hypothesis P_JObj : ∀ fields, Forall (λ kv, P kv.2) fields → P (JObj fields).

Fixpoint json_ind_nested (v : json) : P v :=
  match v with
  | JNull => P_JNull
  | JBool b => P_JBool b
  | JNum q => P_JNum q
  | JStr s => P_JStr s
  | JArr items =>
      P_JArr items
        ((fix all (l : list json) : Forall P l :=
            match l with
            | [] => @List.Forall_nil json P
            | x :: l' => @List.Forall_cons json P x l' (json_ind_nested x) (all l')
            end) items)
  | JObj fields =>
      P_JObj fields
        ((fix all (l : list (string * json)) : Forall (λ kv, P kv.2) l :=
            match l with
            | [] => @List.Forall_nil _ (λ kv, P kv.2)
            | (k, x) :: l' =>
                @List.Forall_cons _ (λ kv, P kv.2) (k, x) l' (json_ind_nested x) (all l')
            end) fields)
  end.

End JsonInduction.

Section NodeInduction.

Variable P : node → Prop.
Hypothesis P_Text : ∀ s, P (Text s).
Hypothesis P_Tag : ∀ name classes contents,
  Forall P contents → P (Tag name classes contents).
Hypothesis P_Decomposed : P Decomposed.

Fixpoint node_ind_nested (n : node) : P n :=
  match n with
  | Text s => P_Text s
  | Tag name classes contents =>
      P_Tag name classes contents
        ((fix all (cs : list node) : Forall P cs :=
            match cs with
            | [] => @List.Forall_nil node P
            | c :: cs' => @List.Forall_cons node P c cs' (node_ind_nested c) (all cs')
            end) contents)
  | Decomposed => P_Decomposed
  end.

End NodeInduction.

(** * The rest of the program, and more vocabulary *)

(** ** Vocabulary *)

(** A reply as the fetcher looks at it: without its status code. *)
Definition body_of (r : response) : option (option json) :=
  match r with
  | NetworkError => None
  | Reply _ body => Some body
  end.

(** The waits of a log, in order. *)
Definition sleeps (evs : list event) : list Q :=
  omap (λ e, match e with EvSleep secs => Some secs | EvGet _ _ _ => None end) evs.

(** [s] is the string under a key [key] somewhere in the document. *)
Inductive holds_key (key : string) : json → string → Prop :=
  | holds_key_here fields s :
      (key, JStr s) ∈ fields → holds_key key (JObj fields) s
  | holds_key_field fields k v s :
      (k, v) ∈ fields → holds_key key v s → holds_key key (JObj fields) s
  | holds_key_item items item s :
      item ∈ items → holds_key key item s → holds_key key (JArr items) s.

Definition is_object (v : json) : bool :=
  match v with JObj _ => true | _ => false end.

(** ** Build token: [get_build_id_from_page] *)

(** Lines 64-77. *)
Fixpoint find_build_id (d : json) : json :=
  match d with
  | JObj fields =>
      (fix items (fields : list (string * json)) : json :=
         match fields with
         | [] => JNull
         | (k, v) :: rest =>
             if String.eqb k "buildId" && is_str v then v
             else let found := find_build_id v in
                  if truthy found then found else items rest
         end) fields
  | JArr l =>
      (fix elements (l : list json) : json :=
         match l with
         | [] => JNull
         | item :: rest =>
             let found := find_build_id item in
             if truthy found then found else elements rest
         end) l
  | _ => JNull
  end.

(** What the sample page comes to before the token is looked for: the
    request raised or the status was an error (lines 41-46); the page has no
    [__NEXT_DATA__] script with a text (lines 48-53); or the text of the
    script was given to [json.loads], which decoded it or raised
    [JSONDecodeError]. *)
Inductive sample_page :=
  | PageUnavailable
  | NoNextData
  | NextData (decoded : option json).

(** Lines 36-91, from those outcomes on. Every exception of the [try] block
    makes the result [None]. *)
Definition get_build_id_from_page (page : sample_page) : json :=
  match page with
  | PageUnavailable => JNull
  | NoNextData => JNull
  | NextData None => JNull
  | NextData (Some data) =>
      match py_get data "buildId" JNull with
      | Raised _ => JNull
      | Returned build_id =>
          if truthy build_id then build_id
          else
            let build_id := find_build_id data in
            if truthy build_id then build_id else JNull
      end
  end.

(** ** Artifact writer and the loop over the books of [scrape_version] *)

Record row := {
  row_book : string;
  row_chapter : Z;
  row_verse : option string;
  row_text : string;
}.

(** Lines 374-384: one row for each verse of each entry. *)
Definition csv_rows (book_out : list chapter_entry) : list row :=
  flat_map
    (λ entry,
       map (λ v, {| row_book := entry_book entry;
                    row_chapter := entry_chapter entry;
                    row_verse := verse v;
                    row_text := text v |})
         (entry_verses entry))
    book_out.

(** A file written for a book: its name, to be joined to [outdir], and what
    goes into it before it is serialised. *)
Inductive artifact :=
  | JsonFile (name : string) (entries : list chapter_entry)
  | CsvFile (name : string) (rows : list row)
  | RawFile (name : string) (content : string).

(** The items of a list that [str.join] accepts: strings only. *)
Fixpoint strings_of (items : list json) : py_result (list string) :=
  match items with
  | [] => Returned []
  | JStr s :: rest => ss ← strings_of rest; mret (s :: ss)
  | _ :: _ => Raised TypeError
  end.

(** [sep.join(items)] *)
Definition py_join (sep : string) (items : list json) : py_result string :=
  PyStr.join sep <$> strings_of items.

Definition newline : string := String "010" "".

(** How a call of [scrape_version] ends: every book has had its turn; one
    of the exceptions above leaves the function; [next] finds no book of the
    catalogue with the code and raises [StopIteration]; [os.makedirs]
    raises; or [open], [json.dump], [to_csv] or [write] raises while the
    file of that name is written. *)
Inductive run_end :=
  | AllDone
  | Failed (e : exn)
  | BookNotFound
  | NoOutdir
  | NotWritten (name : string).

(** What a book that has had its turn leaves: what it accumulated, and the
    files that were written to the end, in the order they were written. *)
Record book_result := {
  result_book : string;
  result_state : book_state;
  result_files : list artifact;
}.

Section ScrapeVersion.

Variable net : nat → response.
Variable BeautifulSoup : json → py_result (list node).

(** [html.unescape], of the library. *)
Variable unescape : string → string.

(** The file system, which the program does not control. [makedirs] tells
    whether [os.makedirs(outdir, exist_ok=True)] returns. [opens n name]
    tells whether [open(path, "w")] returns for the file of that name, and
    [writes n file] whether the content is then encoded and written without
    an exception, when [n] requests have been sent. *)
Variable makedirs : bool.
Variable opens : nat → string → bool.
Variable writes : nat → artifact → bool.

Variables version_id version_code build_id locale route : string.
Variable sleep_between : Q.

(** The number of requests sent so far. *)
Definition requests_sent : M nat := λ n, (n, n, []).

(** Lines 369-395, when [now] requests have been sent: the files written to
    the end, in order, and what ends the writing early, if anything. A file
    whose writing raises is not among them: it may be missing, empty or cut
    short. [to_csv] opens and writes in one call. The raw file is opened
    before its text is joined, so it is left empty when the join raises. *)
Definition write_book (now : nat) (book : string) (st : book_state)
    : list artifact * option run_end :=
  match book_out st with
  | [] => ([], None)
  | _ :: _ =>
      let json_name := version_code +:+ "_" +:+ book +:+ ".json" in
      let out_json := JsonFile json_name (book_out st) in
      if negb (opens now json_name && writes now out_json)
      then ([], Some (NotWritten json_name))
      else
        let rows := csv_rows (book_out st) in
        let csv_name := version_code +:+ "_" +:+ book +:+ ".csv" in
        let out_csv := CsvFile csv_name rows in
        if negb (opens now csv_name && writes now out_csv)
        then ([out_json], Some (NotWritten csv_name))
        else
          let raw_txt := version_code +:+ "_" +:+ book +:+ "_raw.txt" in
          if negb (opens now raw_txt)
          then ([out_json; out_csv], Some (NotWritten raw_txt))
          else
            match py_join newline (raw_html_accumulator st) with
            | Raised e => ([out_json; out_csv; RawFile raw_txt ""], Some (Failed e))
            | Returned joined =>
                let out_raw := RawFile raw_txt (unescape joined) in
                if negb (writes now out_raw)
                then ([out_json; out_csv], Some (NotWritten raw_txt))
                else ([out_json; out_csv; out_raw], None)
            end
  end.

Definition catalog_url : string :=
  "https://www.bible.com/api/bible/version/" +:+ version_id.

(** [fetch_books_and_chapters(version_id)] with its request, lines 219-249. *)
Definition request_books_and_chapters : M (py_result (list book_meta)) :=
  r ← http_get net catalog_url [];
  mret (fetch_books_and_chapters r).

(** [b["book_code"] == book] for a book code given as a string. *)
Definition has_code (book : string) (b : book_meta) : bool :=
  match book_code b with
  | JStr code => String.eqb code book
  | _ => false
  end.

(** Lines 281-395: the loop over the books, with the results of the books
    that have had their turn. *)
Fixpoint books_loop (books : list string) (results : list book_result)
    : M (run_end * list book_result) :=
  match books with
  | [] => mret (AllDone, results)
  | book :: rest =>
      catalog ← request_books_and_chapters;
      match catalog with
      | Raised e => mret (Failed e, results)
      | Returned catalog =>
          match List.find (has_code book) catalog with
          | None => mret (BookNotFound, results)
          | Some book_meta =>
              r ← chapters_loop net BeautifulSoup build_id locale version_id
                    version_code route book sleep_between
                    (chapters book_meta) empty_book;
              match r with
              | (Some (Uncaught e), _) => mret (Failed e, results)
              | (_, st) =>
                  now ← requests_sent;
                  let (files, ending) := write_book now book st in
                  let results :=
                    results ++ [{| result_book := book;
                                   result_state := st;
                                   result_files := files |}] in
                  match ending with
                  | Some ending => mret (ending, results)
                  | None => books_loop rest results
                  end
              end
          end
      end
  end.

(** Lines 255-397, for a call that names its books. The catalogue is
    requested once to be displayed (line 278), then once for each book. *)
Definition scrape_version (books : list string) : M (run_end * list book_result) :=
  if negb makedirs then mret (NoOutdir, [])
  else
    catalog ← request_books_and_chapters;
    match catalog with
    | Raised e => mret (Failed e, [])
    | Returned _ => books_loop books []
    end.

End ScrapeVersion.

(** ** The cleaning pipeline: [src/cleaner.py] *)

Module PyPath.

(** [s.rfind(c)] for a character, [None] for -1. *)
Fixpoint rfind (c : ascii) (s : string) : option nat :=
  match s with
  | EmptyString => None
  | String a s' =>
      match rfind c s' with
      | Some i => Some (S i)
      | None => if Ascii.eqb a c then Some 0%nat else None
      end
  end.

(** [s[:n]] and [s[n:]] for [n] that is not negative. *)
Fixpoint take (n : nat) (s : string) : string :=
  match n, s with
  | S n', String c s' => String c (take n' s')
  | _, _ => EmptyString
  end.

Fixpoint drop (n : nat) (s : string) : string :=
  match n, s with
  | S n', String _ s' => drop n' s'
  | _, _ => s
  end.

(** The index at which the suffix of a file name starts: the last dot,
    unless it is the first or the last character of the name ([pathlib]'s
    rule [0 < i < len(name) - 1] for [i = name.rfind(".")]). *)
Definition suffix_start (name : string) : option nat :=
  match rfind "." name with
  | Some i =>
      if (0 <? i)%nat && (i <? String.length name - 1)%nat then Some i else None
  | None => None
  end.

(** [PurePath.suffix] and [PurePath.stem], on the name of the file. *)
Definition suffix (name : string) : string :=
  match suffix_start name with
  | Some i => drop i name
  | None => EmptyString
  end.

Definition stem (name : string) : string :=
  match suffix_start name with
  | Some i => take i name
  | None => name
  end.

(** [s.endswith(suffix)] *)
Definition endswith (s suf : string) : bool :=
  (String.length suf <=? String.length s)%nat
  && String.eqb (drop (String.length s - String.length suf) s) suf.

End PyPath.

(** Lines 49-54 of [process_files]: the name of the file a raw file is
    cleaned into. *)
Definition cleaned_name (name : string) : string :=
  let stem := PyPath.stem name in
  let new_stem :=
    if PyPath.endswith stem "_raw"
    then PyPath.take (String.length stem - 4) stem +:+ "_cleaned"
    else stem +:+ "_cleaned" in
  new_stem +:+ PyPath.suffix name.

(** [s.replace(old, new)] for [old] that is not empty: the occurrences are
    taken from the left and do not overlap; [skip] counts the characters of
    an occurrence that are still to be passed over. *)
Fixpoint replace_from (old new : string) (skip : nat) (s : string) : string :=
  match s with
  | EmptyString => EmptyString
  | String c s' =>
      match skip with
      | S skip' => replace_from old new skip' s'
      | O =>
          if String.prefix old s
          then new +:+ replace_from old new (String.length old - 1) s'
          else String c (replace_from old new 0 s')
      end
  end.

(** Lines 16-30 of [load_steps]: the placeholders of a replacement, in the
    order of [placeholder_map]. *)
Definition apply_placeholders (replace : string) : string :=
  replace_from "$" "\" 0 (replace_from "<space>" " " 0 replace).

(** ** More vocabulary *)

(** The event is a request to [url]. *)
Definition is_request_to (url : string) (e : event) : bool :=
  match e with
  | EvGet u _ _ => String.eqb u url
  | EvSleep _ => false
  end.

(** The metadata document of the reply has an entry for the book code. *)
Definition lists_book (book : string) (r : response) : bool :=
  match fetch_books_and_chapters r with
  | Returned books => existsb (has_code book) books
  | Raised _ => false
  end.

(** The three files of a book, as the writer names and fills them; [raw]
    is the text of the raw file. *)
Definition files_of (version_code : string) (res : book_result) (raw : string)
    : list artifact :=
  [JsonFile (version_code +:+ "_" +:+ result_book res +:+ ".json")
     (book_out (result_state res));
   CsvFile (version_code +:+ "_" +:+ result_book res +:+ ".csv")
     (csv_rows (book_out (result_state res)));
   RawFile (version_code +:+ "_" +:+ result_book res +:+ "_raw.txt") raw].

(** The files a book that has had its turn may leave: none when no chapter
    was stored, and else the first of its three files, in the order JSON,
    CSV, raw text. *)
Definition files_of_a_book (version_code : string) (res : book_result) : Prop :=
  (book_out (result_state res) = [] → result_files res = [])
  ∧ ∃ raw, result_files res `prefix_of` files_of version_code res raw.

(** The files a book leaves when nothing goes wrong: none when no chapter
    was stored, and else its three files, the raw text being the archived
    fragments joined by newlines and unescaped. *)
Definition all_files_of_a_book (unescape : string → string) (version_code : string)
    (res : book_result) : Prop :=
  match book_out (result_state res) with
  | [] => result_files res = []
  | _ :: _ =>
      ∃ joined,
        py_join newline (raw_html_accumulator (result_state res)) = Returned joined
        ∧ result_files res = files_of version_code res (unescape joined)
  end.

(** A catalogue that never changes, for examples: every request to the
    metadata endpoint gets [genesis_catalog]; the chapters come with a
    fragment. *)
Definition steady_site (n : nat) : response :=
  match n with
  | 0%nat | 1%nat => Reply 200 (Some genesis_catalog)
  | _ => chapter_document "In the beginning"
  end.

(** A run of the examples, on a file system that takes every file. *)
Definition demo_run (site : nat → response) (books : list string)
    : M (run_end * list book_result) :=
  scrape_version site one_verse_parser (λ s, s) true (λ _ _, true) (λ _ _, true)
    "144" "MBB05" "b1" "en-GB" "bible" (4 # 5) books.

(** * Properties *)

(** ** The model at work *)

Example catalog_demo :
  books_and_chapters
    (JObj [("books", JArr [JObj [("usfm", JStr "GEN"); ("human", JStr "Genesis");
       ("chapters", JArr [JObj [("human", JStr "Intro"); ("canonical", JBool false)];
                          JObj [("human", JStr " 1 "); ("canonical", JBool true)];
                          JObj [("human", JStr "02")];
                          JObj [("human", JStr "3"); ("canonical", JBool false)]])]])])
  = Returned [{| book_code := JStr "GEN"; book_name := JStr "Genesis"; chapters := [1; 2] |}].
Proof. vm_compute. reflexivity. Qed.

Example url_demo :
  construct_json_url "abc" "en-GB" "144" "GEN" 3 "MBB05" "bible"
  = Returned ("https://www.bible.com/_next/data/abc/en-GB/bible/144/GEN.3.MBB05.json",
              [("versionId", "144"); ("usfm", "GEN.3.MBB05")]).
Proof. vm_compute. reflexivity. Qed.

Example locate_fixed_path :
  locate_html_content
    (JObj [("pageProps", JObj [("chapterInfo", JObj [("content", JStr "<p>")])])])
  = JStr "<p>".
Proof. reflexivity. Qed.

Example locate_fallback :
  locate_html_content
    (JObj [("pageProps", JObj []); ("x", JArr [JNum 1; JObj [("content", JStr "<q>")]])])
  = JStr "<q>".
Proof. reflexivity. Qed.

Example locate_no_fallback_after_exception :
  locate_html_content (JObj [("pageProps", JNull); ("content", JStr "<q>")]) = JNull.
Proof. reflexivity. Qed.

Example fetch_third_time_lucky :
  let net := λ n, match n with
                  | 7%nat | 8%nat => Reply 200 None
                  | _ => Reply 200 (Some (JStr "payload"))
                  end in
  fetch_json_with_retries net "u" [] 3 5 7%nat
  = (JStr "payload", 10%nat,
     [EvGet "u" [] (Reply 200 None); EvSleep (inject_Z 5);
      EvGet "u" [] (Reply 200 None); EvSleep (inject_Z 10);
      EvGet "u" [] (Reply 200 (Some (JStr "payload")))]).
Proof. vm_compute. reflexivity. Qed.

Example extract_demo :
  extract_verses
    [Tag "div" ["chapter"]
       [span "verse" [span "label" [Text "1"];
                      span "content" [Text " In the beginning "];
                      span "note" [span "content" [Text "footnote"]];
                      span "content" [Text "God"]];
        span "verse" [span "label" [Text "2"]; span "content" [Text "  "]];
        span "verse" [Text "plain "; span "note" [Text "n"]; Text "text"]]]
  = [{| verse := Some "1"; text := "In the beginning" |};
     {| verse := None; text := "plain text" |}].
Proof. vm_compute. reflexivity. Qed.

Example extract_nested :
  extract_verses
    [span "verse" [Text "a";
                   span "note" [Text "n"; span "verse" [Text "inside"]];
                   span "verse" [Text "b"; span "note" [Text "m"]]]]
  = [{| verse := None; text := "a b" |}; {| verse := None; text := "b" |}].
Proof. vm_compute. reflexivity. Qed.

(** The scenario of the specification: chapters 1 and 2 are stored, chapter
    3 has no content, the loop is left and chapter 4 is not requested. *)
Example genesis_scenario :
  let r := demo_loop genesis_site [1; 2; 3; 4] empty_book 0%nat in
  (value r).1 = Some Break
  ∧ map entry_chapter (book_out (value r).2) = [1; 2]
  ∧ raw_html_accumulator (value r).2 = [JStr "In the beginning"; JStr "Thus the heavens"]
  ∧ sent r = 3%nat.
Proof. vm_compute. repeat split; reflexivity. Qed.

(** A failed fetch, an empty document and a fragment without verse text are
    skipped; the fragment is archived all the same. *)
Example patchy_scenario :
  let r := demo_loop patchy_site [1; 2; 3; 4] empty_book 0%nat in
  (value r).1 = None
  ∧ map entry_chapter (book_out (value r).2) = [4]
  ∧ raw_html_accumulator (value r).2 = [JStr "   "; JStr "And God said"]
  ∧ sent r = 6%nat.
Proof. vm_compute. repeat split; reflexivity. Qed.

(** ** Catalog resolver *)


Lemma int_digits_returned acc s n :
  PyStr.int_digits acc s = Returned n → n = decimal_value_from acc s.
Proof.
  revert acc. induction s as [|c s IH]; intros acc H; simpl in *.
  - by inversion H.
  - destruct (PyStr.isdecimal c); [by apply IH | discriminate].
Qed.

Lemma digit_value_nonneg c : PyStr.isdecimal c = true → 0 ≤ PyStr.digit_value c.
Proof.
  unfold PyStr.isdecimal, PyStr.digit_value. intros H.
  apply andb_prop in H as [H _]. apply N.leb_le in H. lia.
Qed.

Lemma int_digits_nonneg acc s n :
  0 ≤ acc → PyStr.int_digits acc s = Returned n → 0 ≤ n.
Proof.
  revert acc. induction s as [|c s IH]; intros acc Hacc H; simpl in *.
  - inversion H; by subst.
  - destruct (PyStr.isdecimal c) eqn:Hc; [|discriminate].
    pose proof (digit_value_nonneg c Hc). apply (IH (10 * acc + PyStr.digit_value c)); [lia|done].
Qed.

Lemma int_returned s n :
  PyStr.int s = Returned n → n = decimal_value s ∧ 0 ≤ n.
Proof.
  unfold PyStr.int. destruct (PyStr.nonempty s); [|discriminate].
  destruct (PyStr.max_str_digits <? Z.of_nat (String.length s)); [discriminate|].
  intros H. split.
  - by apply int_digits_returned.
  - by apply (int_digits_nonneg 0 s).
Qed.

(** What an entry that is read without an exception contributes. *)
Lemma chapter_number_returned ch r :
  chapter_number ch = Returned r →
  r = (if kept ch then Some (decimal_value (label_of ch)) else None)
  ∧ (∀ n, r = Some n → 0 ≤ n).
Proof.
  unfold chapter_number, kept, label_of, flagged_canonical.
  destruct ch as [| | | |?|fields]; try discriminate. simpl.
  destruct (assoc "human" fields) as [[| | |s| |]|] eqn:Hh; simpl; try discriminate.
  - destruct (assoc "canonical" fields) as [flag|]; simpl.
    + destruct (truthy flag && PyStr.isdigit (PyStr.strip s)); simpl.
      * destruct (PyStr.int (PyStr.strip s)) as [n|] eqn:Hn; simpl; [|discriminate].
        intros [= <-]. apply int_returned in Hn as [-> ?]. split; [done|]. by intros ? [= <-].
      * intros [= <-]. done.
    + destruct (PyStr.isdigit (PyStr.strip s)); simpl.
      * destruct (PyStr.int (PyStr.strip s)) as [n|] eqn:Hn; simpl; [|discriminate].
        intros [= <-]. apply int_returned in Hn as [-> ?]. split; [done|]. by intros ? [= <-].
      * intros [= <-]. done.
  - change (PyStr.strip "") with "". change (PyStr.isdigit "") with false.
    rewrite andb_false_r.
    destruct (assoc "canonical" fields) as [flag|]; simpl;
      rewrite ?andb_false_r; intros [= <-]; done.
Qed.

Lemma chapters_for_returned entries acc chs :
  py_for entries
    (λ ch chapters,
       n ← chapter_number ch;
       mret (match n with Some n => chapters ++ [n] | None => chapters end)) acc
  = Returned chs →
  chs = acc ++ map (λ ch, decimal_value (label_of ch)) (List.filter kept entries)
  ∧ (Forall (λ n, 0 ≤ n) acc → Forall (λ n, 0 ≤ n) chs).
Proof.
  revert acc. induction entries as [|ch entries IH]; intros acc; simpl.
  - intros [= <-]. by rewrite app_nil_r.
  - destruct (chapter_number ch) as [r|] eqn:Hch; simpl; [|discriminate].
    apply chapter_number_returned in Hch as [-> Hpos]. intros H.
    destruct (kept ch); simpl in *.
    + apply IH in H as [Heq Hall]. rewrite <- app_assoc in Heq. split; [done|].
      intros Hacc. apply Hall, Forall_app. split; [done|].
      constructor; [by apply Hpos | constructor].
    + by apply IH.
Qed.

Lemma book_chapters_returned book chs :
  book_chapters book = Returned chs →
  ∃ entries,
    (py_get book "chapters" (JArr []) ≫= py_iter) = Returned entries
    ∧ chs = map (λ ch, decimal_value (label_of ch)) (List.filter kept entries)
    ∧ Forall (λ n, 0 ≤ n) chs.
Proof.
  unfold book_chapters.
  destruct (py_get book "chapters" (JArr []) ≫= py_iter) as [entries|]; simpl; [|discriminate].
  intros H. apply chapters_for_returned in H as [-> Hall].
  exists entries. split; [done|]. split; [done|]. by apply Hall.
Qed.

Lemma book_entry_returned book b :
  book_entry book = Returned b →
  resolved_from book b ∧ Forall (λ n, 0 ≤ n) (chapters b).
Proof.
  unfold book_entry, resolved_from.
  destruct (book_chapters book) as [chs|] eqn:Hchs; simpl; [|discriminate].
  destruct (py_getitem book "usfm"); simpl; [|discriminate].
  destruct (py_getitem book "human"); simpl; [|discriminate].
  intros [= <-]. simpl.
  apply book_chapters_returned in Hchs as (entries & ? & ? & ?). eauto.
Qed.

Lemma books_for_returned books acc result :
  py_for books (λ book result, b ← book_entry book; mret (result ++ [b])) acc
  = Returned result →
  ∃ new, result = acc ++ new ∧ Forall2 resolved_from books new
         ∧ Forall (λ b, Forall (λ n, 0 ≤ n) (chapters b)) new.
Proof.
  revert acc. induction books as [|book books IH]; intros acc; simpl.
  - intros [= <-]. exists []. by rewrite app_nil_r.
  - destruct (book_entry book) as [b|] eqn:Hb; simpl; [|discriminate].
    intros H. apply IH in H as (new & -> & Hnew & Hpos).
    apply book_entry_returned in Hb as [? ?].
    exists (b :: new). rewrite <- app_assoc. repeat split; by constructor.
Qed.

(** C4, as the code has it: the chapter list of every book of the result
    holds the values of the entries that are canonical (flag truthy or
    missing) and whose stripped label is a digit string, in the order of the
    source and with nothing else; all its numbers are non-negative. *)
Theorem catalog_chapters_kept_in_source_order data result :
  books_and_chapters data = Returned result →
  ∃ books,
    (py_get data "books" (JArr []) ≫= py_iter) = Returned books
    ∧ Forall2 resolved_from books result
    ∧ Forall (λ b, Forall (λ n, 0 ≤ n) (chapters b)) result.
Proof.
  unfold books_and_chapters.
  destruct (py_get data "books" (JArr []) ≫= py_iter) as [books|]; simpl; [|discriminate].
  intros H. apply books_for_returned in H as (new & -> & ? & ?).
  exists books. done.
Qed.

Lemma catalog_chapters_kept_in_source_order_witness :
  ∃ books,
    (py_get genesis_catalog "books" (JArr []) ≫= py_iter) = Returned books
    ∧ Forall2 resolved_from books
        [{| book_code := JStr "GEN"; book_name := JStr "Genesis"; chapters := [1; 2] |}]
    ∧ Forall (λ b, Forall (λ n, 0 ≤ n) (chapters b))
        [{| book_code := JStr "GEN"; book_name := JStr "Genesis"; chapters := [1; 2] |}].
Proof.
  apply (catalog_chapters_kept_in_source_order genesis_catalog).
  vm_compute. reflexivity.
Defined.

(** C4, as the specification states it, fails: the resolver neither sorts
    the chapters nor drops a label that reads 0. *)
Lemma catalog_chapters_not_increasing_positive :
  ¬ (∀ data result,
       books_and_chapters data = Returned result →
       Forall (λ b, increasing_positive (chapters b)) result).
Proof.
  intros H.
  specialize (H unordered_catalog
    [{| book_code := JStr "PSA"; book_name := JStr "Psalms"; chapters := [2; 1; 0] |}]
    ltac:(vm_compute; reflexivity)).
  apply Forall_inv in H as [_ Hsorted]. simpl in Hsorted.
  apply StronglySorted_inv in Hsorted as [_ Hlt].
  apply Forall_inv in Hlt. lia.
Qed.




(** ** Request builder *)



(** ** Resilient fetcher *)

Section FetcherFacts.

Variable net : nat → response.
Variables (url : string) (params : list (string * string)) (backoff : Z).

Lemma after_nil {A} (r : A * nat * list event) : after [] r = r.
Proof. by destruct r as [[? ?] ?]. Qed.

(** One turn of the retry loop. *)
Lemma fetch_attempts_cons attempt rest n :
  fetch_attempts net url params backoff (attempt :: rest) n =
  match net n with
  | Reply _ (Some data) => (data, S n, [EvGet url params (net n)])
  | Reply _ None =>
      after [EvGet url params (net n); EvSleep (inject_Z (backoff * (attempt + 1)))]
        (fetch_attempts net url params backoff rest (S n))
  | NetworkError =>
      after [EvGet url params (net n); EvSleep (inject_Z backoff)]
        (fetch_attempts net url params backoff rest (S n))
  end.
Proof.
  simpl. unfold mbind, M_bind, http_get, sleep, after, value, sent, events.
  destruct (net n) as [|status [data|]]; simpl; try reflexivity;
    destruct (fetch_attempts net url params backoff rest (S n)) as [[? ?] ?];
    reflexivity.
Qed.

Lemma fetch_attempts_bounded attempts n :
  (length (List.filter is_get (events (fetch_attempts net url params backoff attempts n)))
   ≤ length attempts)%nat.
Proof.
  revert n. induction attempts as [|attempt rest IH]; intros n; [simpl; lia|].
  rewrite fetch_attempts_cons.
  destruct (net n) as [|status [data|]]; simpl; try lia;
    specialize (IH (S n)); lia.
Qed.

Lemma fetch_attempts_exhausted attempts n :
  (∀ i, (i < length attempts)%nat → no_json (net (n + i)) = true) →
  let run := fetch_attempts net url params backoff attempts n in
  value run = JNull
  ∧ sent run = (n + length attempts)%nat
  ∧ length (List.filter is_get (events run)) = length attempts.
Proof.
  revert n. induction attempts as [|attempt rest IH]; intros n Hno.
  - simpl. repeat split. unfold sent. simpl. lia.
  - assert (Hrest : ∀ i, (i < length rest)%nat → no_json (net (S n + i)) = true).
    { intros i Hi. replace (S n + i)%nat with (n + S i)%nat by lia.
      apply Hno. simpl. lia. }
    specialize (IH (S n) Hrest). simpl in IH. destruct IH as (Hv & Hs & Hc).
    pose proof (Hno 0%nat ltac:(simpl; lia)) as H0.
    rewrite Nat.add_0_r in H0. cbv zeta. rewrite fetch_attempts_cons.
    destruct (net n) as [|status [data|]]; [| discriminate |];
      unfold after, value, sent, events in *; simpl in *;
      rewrite Hv, Hs, Hc; repeat split; lia.
Qed.

(** The events of the attempt numbered [a + k], when the [k] before it
    brought no document. *)
Lemma fetch_attempts_trace len a n k :
  (k < len)%nat →
  (∀ i, (i < k)%nat → no_json (net (n + i)) = true) →
  let run := fetch_attempts net url params backoff (map Z.of_nat (seq a len)) n in
  events run !! (2 * k)%nat = Some (EvGet url params (net (n + k)))
  ∧ match net (n + k) with
    | Reply _ (Some data) =>
        value run = data ∧ sent run = S (n + k)
        ∧ length (events run) = S (2 * k)
    | Reply _ None =>
        events run !! S (2 * k)
        = Some (EvSleep (inject_Z (backoff * (Z.of_nat (a + k) + 1))))
    | NetworkError =>
        events run !! S (2 * k) = Some (EvSleep (inject_Z backoff))
    end.
Proof.
  revert a n k. induction len as [|len IH]; intros a n k Hk Hno; [lia|].
  cbv zeta. simpl seq. simpl map. rewrite fetch_attempts_cons.
  destruct k as [|k].
  - rewrite Nat.add_0_r. simpl.
    destruct (net n) as [|status [data|]]; simpl; rewrite ?Nat.add_0_r; by repeat split.
  - pose proof (Hno 0%nat ltac:(lia)) as H0. rewrite Nat.add_0_r in H0.
    assert (Hrest : ∀ i, (i < k)%nat → no_json (net (S n + i)) = true).
    { intros i Hi. replace (S n + i)%nat with (n + S i)%nat by lia.
      apply Hno. lia. }
    specialize (IH (S a) (S n) k ltac:(lia) Hrest). cbv zeta in IH.
    replace (S n + k)%nat with (n + S k)%nat in IH by lia.
    replace (S a + k)%nat with (a + S k)%nat in IH by lia.
    replace (2 * S k)%nat with (S (S (2 * k))) by lia.
    destruct IH as [Hget Hcase].
    destruct (net n) as [|status [data|]]; [| discriminate |];
      unfold after, value, sent, events in *; simpl; (split; [exact Hget|]);
      destruct (net (n + S k)) as [|status' [data'|]]; simpl;
      try exact Hcase; destruct Hcase as (? & ? & ?); repeat split; try done;
      simpl; lia.
Qed.

(** A fetch delivers at most one document, the one it returns. *)
Lemma fetch_attempts_delivered attempts n :
  let run := fetch_attempts net url params backoff attempts n in
  (delivered (events run) = [] ∧ value run = JNull)
  ∨ delivered (events run) = [value run].
Proof.
  revert n. induction attempts as [|attempt rest IH]; intros n; [by left|].
  cbv zeta. rewrite fetch_attempts_cons. specialize (IH (S n)). cbv zeta in IH.
  destruct (net n) as [|status [data|]] eqn:Hn; simpl.
  - exact IH.
  - by right.
  - exact IH.
Qed.

End FetcherFacts.

Lemma length_py_range n : length (py_range n) = Z.to_nat n.
Proof. unfold py_range. by rewrite length_map, length_seq. Qed.

(** C2: the fetcher never sends more than [retries] requests. While no
    document has come, attempt number [k + 1] is sent; when its body is not
    JSON the fetcher sleeps [backoff * (k + 1)] seconds and, if attempts are
    left, sends the next request; when its body is JSON the fetcher returns
    that document at once, with no further event. *)
Theorem fetch_backs_off_linearly_and_returns_first_document
    net url params retries backoff n :
  let run := fetch_json_with_retries net url params retries backoff n in
  (length (List.filter is_get (events run)) ≤ Z.to_nat retries)%nat
  ∧ ∀ k,
      (k < Z.to_nat retries)%nat →
      (∀ i, (i < k)%nat → no_json (net (n + i)%nat) = true) →
      events run !! (2 * k)%nat = Some (EvGet url params (net (n + k)%nat))
      ∧ (∀ status,
           net (n + k)%nat = Reply status None →
           events run !! S (2 * k)
           = Some (EvSleep (inject_Z (backoff * (Z.of_nat k + 1))))
           ∧ ((S k < Z.to_nat retries)%nat →
              events run !! (2 * S k)%nat
              = Some (EvGet url params (net (n + S k)%nat))))
      ∧ (∀ status data,
           net (n + k)%nat = Reply status (Some data) →
           value run = data ∧ sent run = S (n + k)%nat
           ∧ length (events run) = S (2 * k)).
Proof.
  cbv zeta. unfold fetch_json_with_retries, py_range. split.
  - pose proof (fetch_attempts_bounded net url params backoff
                  (map Z.of_nat (seq 0 (Z.to_nat retries))) n) as H.
    by rewrite length_map, length_seq in H.
  - intros k Hk Hno.
    pose proof (fetch_attempts_trace net url params backoff
                  (Z.to_nat retries) 0 n k Hk Hno) as [Hget Hcase].
    split; [exact Hget|]. split.
    + intros status Hgarbage. rewrite Hgarbage in Hcase. split; [exact Hcase|].
      intros Hnext.
      assert (Hno' : ∀ i, (i < S k)%nat → no_json (net (n + i)%nat) = true).
      { intros i Hi. destruct (decide (i = k)) as [->|]; [by rewrite Hgarbage|].
        apply Hno. lia. }
      apply (fetch_attempts_trace net url params backoff
               (Z.to_nat retries) 0 n (S k) Hnext Hno').
    + intros status data Hjson. by rewrite Hjson in Hcase.
Qed.

(** The scenario of the specification: two replies that are not JSON, then a
    document, with three attempts allowed: the third payload is returned. *)
Lemma fetch_backs_off_linearly_and_returns_first_document_witness :
  value (fetch_json_with_retries third_time_lucky "u" [] 3 5 0%nat)
  = JObj [("attempt", JNum 3)]
  ∧ events (fetch_json_with_retries third_time_lucky "u" [] 3 5 0%nat) !! 3%nat
    = Some (EvSleep (inject_Z 10)).
Proof.
  destruct (fetch_backs_off_linearly_and_returns_first_document
              third_time_lucky "u" [] 3 5 0%nat) as [_ H].
  split.
  - destruct (H 2%nat) as (_ & _ & Hjson).
    + vm_compute. lia.
    + intros [|[|i]] Hi; [reflexivity | reflexivity | lia].
    + apply (Hjson 200 (JObj [("attempt", JNum 3)])). reflexivity.
  - destruct (H 1%nat) as (_ & Hgarbage & _).
    + vm_compute. lia.
    + intros [|i] Hi; [reflexivity | lia].
    + apply (Hgarbage 200). reflexivity.
Defined.

(** C7, as the code has it: a fetch that runs out of attempts returns [None],
    whatever made the attempts fail, after exactly [retries] requests. *)
Theorem exhausted_fetch_returns_none net url params retries backoff n :
  (∀ i, (i < Z.to_nat retries)%nat → no_json (net (n + i)%nat) = true) →
  let run := fetch_json_with_retries net url params retries backoff n in
  value run = JNull
  ∧ sent run = (n + Z.to_nat retries)%nat
  ∧ length (List.filter is_get (events run)) = Z.to_nat retries.
Proof.
  intros Hno. unfold fetch_json_with_retries.
  pose proof (fetch_attempts_exhausted net url params backoff (py_range retries) n) as H.
  rewrite length_py_range in H. by apply H.
Qed.

Lemma exhausted_fetch_returns_none_witness :
  value (fetch_json_with_retries error_page "u" [] 3 5 0%nat) = JNull.
Proof.
  apply (exhausted_fetch_returns_none error_page "u" [] 3 5 0%nat).
  intros i _. reflexivity.
Defined.

(** C7, as the specification states it, fails: nothing in what the fetcher
    returns tells a site that cannot be reached from one that serves pages
    that are not JSON. *)
Lemma fetch_failure_has_no_reason :
  ¬ ∃ reason : json → failure_reason,
      reason (value (fetch_json_with_retries unreachable "u" [] 3 5 0%nat)) = network
      ∧ reason (value (fetch_json_with_retries error_page "u" [] 3 5 0%nat)) = unparsable.
Proof.
  intros (reason & Hnetwork & Hunparsable).
  change (value (fetch_json_with_retries unreachable "u" [] 3 5 0%nat)) with JNull in Hnetwork.
  change (value (fetch_json_with_retries error_page "u" [] 3 5 0%nat)) with JNull in Hunparsable.
  congruence.
Qed.

(** ** Content extractor: locating the fragment *)

(** The structural search returns a string or [None]. *)
Lemma find_content_str_or_none d :
  find_content d = JNull ∨ ∃ s, find_content d = JStr s.
Proof.
  induction d as [| | | |items IH|fields IH] using json_ind_nested;
    try (by left).
  - simpl. induction IH as [|item rest Hitem _ IHrest]; [by left|].
    destruct (truthy (find_content item)); [exact Hitem | exact IHrest].
  - simpl. induction IH as [|[k v] rest Hv _ IHrest]; [by left|].
    destruct (String.eqb k "content" && is_str v) eqn:Hkey.
    + apply andb_prop in Hkey as [_ Hstr]. destruct v; try discriminate. eauto.
    + simpl in Hv. destruct (truthy (find_content v)); [exact Hv | exact IHrest].
Qed.

(** When no fragment is found, what was located is [None] or the empty
    string. *)
Lemma no_fragment_is_none_or_empty data :
  truthy (locate_html_content data) = false →
  locate_html_content data = JNull ∨ locate_html_content data = JStr "".
Proof.
  unfold locate_html_content.
  destruct (py_get data "pageProps" (JObj [])) as [pageProps|]; simpl; [|by left].
  destruct (py_get pageProps "chapterInfo" (JObj [])) as [chapterInfo|]; simpl; [|by left].
  destruct (py_get chapterInfo "content" JNull) as [content|]; simpl; [|by left].
  destruct (truthy content) eqn:Hcontent; [congruence|].
  destruct (find_content_str_or_none data) as [->|[s ->]]; [by left|].
  destruct s; [by right | discriminate].
Qed.

(** ** Content extractor *)

Lemma select_Tag sel name classes contents :
  select sel (Tag name classes contents) = select_from sel 0 contents.
Proof.
  simpl. generalize 0%nat. induction contents as [|c cs IH]; intros i; simpl; [done|].
  by rewrite IH.
Qed.

Lemma matches_Tag sel name classes cs cs' :
  matches sel (Tag name classes cs) = matches sel (Tag name classes cs').
Proof. reflexivity. Qed.

(** *** Decomposing below a child *)

Lemma alter_lookup_insert {A} (f : A → A) i (l : list A) x :
  l !! i = Some x → alter f i l = <[i := f x]> l.
Proof.
  revert i. induction l as [|y l IH]; intros [|i] H; simpl in *; try done.
  - by injection H as ->.
  - f_equal. by apply IH.
Qed.

Lemma subtree_child i p name classes cs c :
  cs !! i = Some c → subtree (i :: p) (Tag name classes cs) = subtree p c.
Proof. intros H. simpl. by rewrite H. Qed.

Lemma decompose_child i p name classes cs c :
  cs !! i = Some c →
  decompose (i :: p) (Tag name classes cs) = Tag name classes (<[i := decompose p c]> cs).
Proof. intros H. simpl. by rewrite (alter_lookup_insert _ _ _ _ H). Qed.

Lemma subtree_Decomposed p : subtree p Decomposed = Decomposed.
Proof. by destruct p. Qed.

Lemma decompose_Decomposed p : decompose p Decomposed = Decomposed.
Proof. by destruct p. Qed.

Lemma foldl_decompose_child i v qs name classes cs c :
  cs !! i = Some c →
  foldl (λ soup q, decompose ((i :: v) ++ q) soup) (Tag name classes cs) qs
  = Tag name classes (<[i := foldl (λ soup q, decompose (v ++ q) soup) c qs]> cs).
Proof.
  revert cs c. induction qs as [|q qs IH]; intros cs c H; simpl.
  - by rewrite list_insert_id.
  - rewrite (alter_lookup_insert _ _ _ _ H).
    rewrite (IH _ (decompose (v ++ q) c)).
    + by rewrite list_insert_insert_eq.
    + apply list_lookup_insert_eq. by eapply lookup_lt_Some.
Qed.

Lemma decompose_notes_child i v name classes cs c :
  cs !! i = Some c →
  decompose_notes (i :: v) (Tag name classes cs)
  = Tag name classes (<[i := decompose_notes v c]> cs).
Proof.
  intros H. unfold decompose_notes.
  rewrite (subtree_child _ _ _ _ _ _ H). by apply foldl_decompose_child.
Qed.

Lemma decompose_notes_Decomposed v : decompose_notes v Decomposed = Decomposed.
Proof. unfold decompose_notes. by rewrite subtree_Decomposed. Qed.

(** *** The loop over the verses, piece by piece *)

Lemma verses_loop_app vs1 vs2 soup acc :
  verses_loop (vs1 ++ vs2) soup acc
  = verses_loop vs2 (verses_loop vs1 soup acc).2 (verses_loop vs1 soup acc).1.
Proof.
  revert soup acc. induction vs1 as [|v vs1 IH]; intros soup acc; simpl; [done|].
  by rewrite IH.
Qed.

(** The verses below a child are read in the child. *)
Lemma verses_loop_child i vs name classes cs c acc :
  cs !! i = Some c →
  verses_loop (map (cons i) vs) (Tag name classes cs) acc
  = ((verses_loop vs c acc).1, Tag name classes (<[i := (verses_loop vs c acc).2]> cs)).
Proof.
  revert cs c acc. induction vs as [|v vs IH]; intros cs c acc H; simpl.
  - by rewrite list_insert_id.
  - rewrite (decompose_notes_child _ _ _ _ _ _ H).
    assert (Hi : <[i := decompose_notes v c]> cs !! i = Some (decompose_notes v c)).
    { apply list_lookup_insert_eq. by eapply lookup_lt_Some. }
    rewrite Hi. rewrite (IH _ _ _ Hi). by rewrite list_insert_insert_eq.
Qed.

(** Nothing is read in an element that was decomposed. *)
Lemma verses_loop_Decomposed vs acc :
  verses_loop vs Decomposed acc = (acc, Decomposed).
Proof.
  revert acc. induction vs as [|v vs IH]; intros acc; simpl; [done|].
  rewrite decompose_notes_Decomposed, subtree_Decomposed. by rewrite IH.
Qed.

(** *** Removing the footnotes of a verse *)

#[local] Arguments matches : simpl never.

Lemma without_footnotes_true_idem n :
  without_footnotes true (without_footnotes true n) = without_footnotes true n.
Proof.
  induction n as [s|name classes contents IH|] using node_ind_nested; try done.
  simpl. destruct (matches span_note (Tag name classes contents)) eqn:Hnote; [done|].
  simpl. rewrite (matches_Tag _ _ _ _ contents), Hnote. simpl. f_equal.
  rewrite <- list_fmap_compose. apply Forall_fmap_ext, IH.
Qed.

Lemma without_footnotes_not_note n :
  matches span_note n = false → without_footnotes true n = without_notes_below n.
Proof. destruct n; simpl; [done| |done]. by intros ->. Qed.

Lemma foldl_decompose_below i (qs : list path) name classes cs c :
  cs !! i = Some c →
  foldl (λ soup q, decompose q soup) (Tag name classes cs) (map (cons i) qs)
  = Tag name classes (<[i := foldl (λ soup q, decompose q soup) c qs]> cs).
Proof.
  revert cs c. induction qs as [|q qs IH]; intros cs c H.
  - simpl. by rewrite list_insert_id.
  - cbn [map foldl]. rewrite (decompose_child _ _ _ _ _ _ H).
    rewrite (IH _ (decompose q c)).
    + by rewrite list_insert_insert_eq.
    + apply list_lookup_insert_eq. by eapply lookup_lt_Some.
Qed.

Lemma foldl_decompose_dead i (qs : list path) name classes cs :
  cs !! i = Some Decomposed →
  foldl (λ soup q, decompose q soup) (Tag name classes cs) (map (cons i) qs)
  = Tag name classes cs.
Proof.
  intros H. rewrite (foldl_decompose_below _ _ _ _ _ _ H).
  assert (foldl (λ soup q, decompose q soup) Decomposed qs = Decomposed) as ->.
  { induction qs as [|q qs IH]; simpl; [done|]. by rewrite decompose_Decomposed. }
  by rewrite list_insert_id.
Qed.

(** Decomposing every footnote below a node, in the order [select] lists
    them, leaves the node without the footnotes below it. *)
Lemma decompose_all_notes n :
  foldl (λ soup q, decompose q soup) n (select span_note n) = without_notes_below n.
Proof.
  induction n as [s|name classes contents IH|] using node_ind_nested; try done.
  rewrite select_Tag. simpl.
  enough (∀ pre,
    foldl (λ soup q, decompose q soup) (Tag name classes (pre ++ contents))
      (select_from span_note (length pre) contents)
    = Tag name classes (pre ++ map (without_footnotes true) contents)) as H
    by apply (H []).
  induction IH as [|c cs Hc _ IHcs]; intros pre; simpl; [done|].
  assert (Hi : (pre ++ c :: cs) !! length pre = Some c) by by apply list_lookup_middle.
  rewrite !foldl_app.
  match goal with
  | |- foldl ?f (foldl ?f (foldl ?f ?soup ?own) ?below) _ = _ =>
      assert (Hstep : foldl f (foldl f soup own) below
                      = Tag name classes ((pre ++ [without_footnotes true c]) ++ cs))
  end.
  { destruct (matches span_note c) eqn:Hnote.
    - assert (without_footnotes true c = Decomposed) as ->.
      { destruct c; simpl in *; try done. by rewrite Hnote. }
      simpl foldl at 2. rewrite (alter_lookup_insert _ _ _ _ Hi). simpl decompose.
      rewrite foldl_decompose_dead.
      + rewrite <- app_assoc. simpl. f_equal.
        replace (length pre) with (length pre + 0)%nat by lia.
        by rewrite insert_app_r.
      + apply list_lookup_insert_eq. by eapply lookup_lt_Some.
    - simpl foldl at 2. rewrite (foldl_decompose_below _ _ _ _ _ _ Hi), Hc.
      rewrite <- (without_footnotes_not_note _ Hnote), <- app_assoc. simpl. f_equal.
      replace (length pre) with (length pre + 0)%nat at 1 by lia.
      by rewrite insert_app_r. }
  rewrite Hstep. specialize (IHcs (pre ++ [without_footnotes true c])).
  rewrite length_app in IHcs. simpl in IHcs. rewrite Nat.add_1_r in IHcs.
  rewrite IHcs, <- app_assoc. done.
Qed.

Lemma decompose_notes_here n : decompose_notes [] n = without_notes_below n.
Proof. unfold decompose_notes. simpl. apply decompose_all_notes. Qed.

(** *** The loop and the descent agree *)

Lemma read_verse_Decomposed : read_verse Decomposed = None.
Proof. reflexivity. Qed.

Lemma select_from_own sel i c cs :
  select_from sel i (c :: cs)
  = map (cons i) ((if matches sel c then [[]] else []) ++ select sel c)
    ++ select_from sel (S i) cs.
Proof. simpl. rewrite map_app, <- app_assoc. by destruct (matches sel c). Qed.

Lemma verses_loop_contents name classes contents :
  Forall (λ n, ∀ in_verse acc,
            verses_loop ((if matches span_verse n then [[]] else []) ++ select span_verse n)
              (found in_verse n) acc
            = (acc ++ verses_below in_verse n, without_footnotes in_verse n))
         contents →
  ∀ in_verse pre acc,
    verses_loop (select_from span_verse (length pre) contents)
      (Tag name classes (pre ++ map (found in_verse) contents)) acc
    = (acc ++ flat_map (verses_below in_verse) contents,
       Tag name classes (pre ++ map (without_footnotes in_verse) contents)).
Proof.
  induction 1 as [|c cs Hc _ IH]; intros in_verse pre acc.
  - simpl. by rewrite !app_nil_r.
  - rewrite select_from_own, verses_loop_app.
    assert (Hi : (pre ++ map (found in_verse) (c :: cs)) !! length pre
                 = Some (found in_verse c)) by by apply list_lookup_middle.
    rewrite (verses_loop_child _ _ _ _ _ _ _ Hi), Hc. cbn [fst snd].
    replace (<[length pre := without_footnotes in_verse c]>
               (pre ++ map (found in_verse) (c :: cs)))
      with ((pre ++ [without_footnotes in_verse c]) ++ map (found in_verse) cs).
    2: { rewrite <- app_assoc. simpl.
         replace (length pre) with (length pre + 0)%nat at 1 by lia.
         by rewrite insert_app_r. }
    specialize (IH in_verse (pre ++ [without_footnotes in_verse c])
                  (acc ++ verses_below in_verse c)).
    rewrite length_app in IH. simpl in IH. rewrite Nat.add_1_r in IH.
    rewrite IH. simpl. by rewrite <- !app_assoc.
Qed.

Lemma without_footnotes_Tag in_verse name classes contents :
  without_footnotes in_verse (Tag name classes contents)
  = if in_verse && matches span_note (Tag name classes contents) then Decomposed
    else Tag name classes
           (map (without_footnotes
                   (in_verse || matches span_verse (Tag name classes contents)))
              contents).
Proof. reflexivity. Qed.

Lemma verses_below_Tag in_verse name classes contents :
  verses_below in_verse (Tag name classes contents)
  = if in_verse && matches span_note (Tag name classes contents) then []
    else (if matches span_verse (Tag name classes contents)
          then option_list (read_verse (without_notes_below (Tag name classes contents)))
          else [])
         ++ flat_map (verses_below
                        (in_verse || matches span_verse (Tag name classes contents)))
              contents.
Proof. reflexivity. Qed.

Lemma verses_loop_node n :
  ∀ in_verse acc,
    verses_loop ((if matches span_verse n then [[]] else []) ++ select span_verse n)
      (found in_verse n) acc
    = (acc ++ verses_below in_verse n, without_footnotes in_verse n).
Proof.
  induction n as [s|name classes contents IH|] using node_ind_nested;
    intros in_verse acc.
  - simpl. rewrite app_nil_r. by destruct in_verse.
  - rewrite without_footnotes_Tag, verses_below_Tag.
    set (n := Tag name classes contents) in *.
    destruct (in_verse && matches span_note n) eqn:Hdead.
    + (* a footnote inside a verse container: it was decomposed *)
      apply andb_prop in Hdead as [-> Hnote].
      unfold found, n. rewrite without_footnotes_Tag. fold n. rewrite Hnote.
      by rewrite verses_loop_Decomposed, app_nil_r.
    + set (below := in_verse || matches span_verse n).
      (* after the turn of the node itself, its children are as the loop
         finds the children of a node below [below] *)
      rewrite verses_loop_app.
      match goal with
      | |- verses_loop _ (verses_loop ?own _ _).2 _ = _ =>
          assert (Hown :
            verses_loop own (found in_verse n) acc
            = (acc ++ (if matches span_verse n
                       then option_list (read_verse (without_notes_below n)) else []),
               Tag name classes (map (found below) contents)))
      end.
      { assert (Hfound : found in_verse n
                         = Tag name classes (map (found (in_verse && true)) contents)
                           ∨ in_verse = true).
        { destruct in_verse; [by right | left]. unfold found. simpl.
          by rewrite list_fmap_id. }
        subst below. destruct (matches span_verse n) eqn:Hverse.
        - rewrite orb_true_r. cbn [verses_loop].
          rewrite decompose_notes_here. cbn [subtree].
          assert (without_notes_below (found in_verse n) = without_notes_below n) as ->.
          { unfold found. destruct in_verse; [|done].
            unfold n. rewrite without_footnotes_Tag. fold n. rewrite Hdead.
            simpl. f_equal. rewrite <- list_fmap_compose.
            apply list_fmap_ext. intros _ c _. apply without_footnotes_true_idem. }
          destruct (read_verse (without_notes_below n)); by rewrite ?app_nil_r.
        - rewrite orb_false_r, app_nil_r. cbn [verses_loop].
          unfold found. destruct in_verse.
          + unfold n. rewrite without_footnotes_Tag. fold n. by rewrite Hdead, Hverse.
          + simpl. by rewrite list_fmap_id. }
      rewrite Hown. cbn [fst snd].
      unfold n at 1. rewrite select_Tag.
      pose proof (verses_loop_contents name classes contents IH below []) as Hbelow.
      simpl in Hbelow. rewrite Hbelow. by rewrite app_assoc.
  - simpl. rewrite app_nil_r. by destruct in_verse.
Qed.

(** The verses the extractor returns are those the descent reads. *)
Lemma extract_verses_below contents :
  extract_verses contents = flat_map (verses_below false) contents.
Proof.
  unfold extract_verses, document. rewrite select_Tag.
  pose proof (verses_loop_contents "[document]" [] contents) as H.
  specialize (H ltac:(apply Forall_forall; intros n _; apply verses_loop_node) false [] []).
  simpl in H. unfold found in H. rewrite list_fmap_id in H. by rewrite H.
Qed.

(** *** Footnotes do not reach the verses *)

(** The descent reads a node through [without_footnotes] only. *)
Lemma verses_below_without_footnotes n1 :
  ∀ in_verse n2,
    without_footnotes in_verse n1 = without_footnotes in_verse n2 →
    verses_below in_verse n1 = verses_below in_verse n2.
Proof.
  induction n1 as [s|name classes contents IH|] using node_ind_nested;
    intros in_verse n2 H.
  - destruct n2 as [s2|name2 classes2 contents2|]; try done.
    rewrite without_footnotes_Tag in H. rewrite verses_below_Tag.
    by destruct (in_verse && matches span_note (Tag name2 classes2 contents2)).
  - rewrite without_footnotes_Tag in H. rewrite verses_below_Tag.
    destruct (in_verse && matches span_note (Tag name classes contents)) eqn:Hdead.
    + destruct n2 as [s2|name2 classes2 contents2|]; try done.
      rewrite without_footnotes_Tag in H. rewrite verses_below_Tag.
      by destruct (in_verse && matches span_note (Tag name2 classes2 contents2)).
    + destruct n2 as [s2|name2 classes2 contents2|]; try done.
      rewrite without_footnotes_Tag in H. rewrite verses_below_Tag.
      destruct (in_verse && matches span_note (Tag name2 classes2 contents2)) eqn:Hdead2;
        [done|].
      injection H as <- <- Hcontents.
      rewrite <- (matches_Tag span_verse name classes contents contents2) in *.
      set (below := in_verse || matches span_verse (Tag name classes contents)) in *.
      f_equal.
      * destruct (matches span_verse (Tag name classes contents)) eqn:Hverse; [|done].
        subst below. rewrite orb_true_r in Hcontents.
        unfold without_notes_below. by rewrite Hcontents.
      * clear Hdead Hdead2. clearbody below. revert contents2 Hcontents.
        induction IH as [|c cs Hc _ IHcs]; intros [|c2 cs2] Hcontents; try done.
        simpl in *. injection Hcontents as Hhead Htail.
        by rewrite (Hc _ _ Hhead), (IHcs _ Htail).
  - destruct n2 as [s2|name2 classes2 contents2|]; try done.
    rewrite without_footnotes_Tag in H. rewrite verses_below_Tag.
    by destruct (in_verse && matches span_note (Tag name2 classes2 contents2)).
Qed.

Lemma without_footnotes_idem n :
  ∀ in_verse,
    without_footnotes in_verse (without_footnotes in_verse n)
    = without_footnotes in_verse n.
Proof.
  induction n as [s|name classes contents IH|] using node_ind_nested;
    intros in_verse; try done.
  rewrite without_footnotes_Tag.
  destruct (in_verse && matches span_note (Tag name classes contents)) eqn:Hdead; [done|].
  rewrite without_footnotes_Tag.
  rewrite <- (matches_Tag span_note name classes contents), Hdead.
  rewrite <- (matches_Tag span_verse name classes contents).
  f_equal. rewrite <- list_fmap_compose. apply Forall_fmap_ext.
  eapply Forall_impl; [exact IH|]. intros c Hc. apply Hc.
Qed.

(** The verses of a fragment are those of the fragment with the footnotes
    inside its verse containers taken out beforehand. *)
Lemma extract_verses_without_footnotes fragment :
  extract_verses fragment = extract_verses (map (without_footnotes false) fragment).
Proof.
  rewrite !extract_verses_below.
  induction fragment as [|n ns IH]; simpl; [done|]. rewrite IH. f_equal.
  apply verses_below_without_footnotes. by rewrite without_footnotes_idem.
Qed.

(** C3: the verse records read from a fragment do not depend on what the
    footnote elements inside its verse containers hold: two fragments that
    are the same once every such footnote is taken out give the same verse
    labels and the same verse texts. Whatever a footnote says, none of it
    reaches a record. *)
Theorem footnotes_never_reach_the_verses (fragment1 fragment2 : list node) :
  map (without_footnotes false) fragment1 = map (without_footnotes false) fragment2 →
  extract_verses fragment1 = extract_verses fragment2.
Proof.
  intros H.
  rewrite (extract_verses_without_footnotes fragment1), H.
  by rewrite <- extract_verses_without_footnotes.
Qed.

Lemma footnotes_never_reach_the_verses_witness :
  extract_verses (fragment_with_note "Or: when God began to create")
  = extract_verses (fragment_with_note "Gen 1:1").
Proof.
  apply (footnotes_never_reach_the_verses
           (fragment_with_note "Or: when God began to create")
           (fragment_with_note "Gen 1:1")).
  vm_compute. reflexivity.
Defined.

(** No footnote element is left inside a verse container once
    [without_footnotes] has passed. *)
Lemma without_footnotes_leaves_no_note n :
  matches span_note (without_footnotes true n) = false
  ∧ select span_note (without_footnotes true n) = [].
Proof.
  induction n as [s|name classes contents IH|] using node_ind_nested; try done.
  rewrite without_footnotes_Tag.
  destruct (matches span_note (Tag name classes contents)) eqn:Hnote; [done|].
  cbn [andb orb]. split.
  - by rewrite <- (matches_Tag span_note name classes contents).
  - rewrite select_Tag. generalize 0%nat.
    induction IH as [|c cs [Hc1 Hc2] _ IHcs]; intros i; simpl; [done|].
    by rewrite Hc1, Hc2, IHcs.
Qed.

(** ** Book accumulator and stop policy *)

Section AccumulatorFacts.

Variable net : nat → response.
Variable BeautifulSoup : json → py_result (list node).
Variables build_id locale version_id version_code route book : string.
Variable sleep_between : Q.

Local Abbreviation target_of chapter :=
  (construct_json_url build_id locale version_id book chapter version_code route).
Local Abbreviation body :=
  (chapter_body net BeautifulSoup build_id locale version_id version_code
     route book sleep_between).
Local Abbreviation loop :=
  (chapters_loop net BeautifulSoup build_id locale version_id version_code
     route book sleep_between).
Local Abbreviation extract := (extract_verses_from_chapter_html BeautifulSoup).

(** The body of the loop, case by case on what the fetch gave. *)
Lemma chapter_body_fetched chapter st n url params data n2 evs2 :
  target_of chapter = Returned (url, params) →
  fetch_json_with_retries net url params 3 5 n = (data, n2, evs2) →
  body chapter st n =
  if negb (truthy data) then ((None, st), n2, evs2 ++ [EvSleep sleep_between])
  else if negb (truthy (locate_html_content data)) then ((Some Break, st), n2, evs2 ++ [])
  else
    let st' := archive (locate_html_content data) st in
    match extract (locate_html_content data) with
    | Raised e => ((Some (Uncaught e), st'), n2, evs2 ++ [])
    | Returned [] => ((None, st'), n2, evs2 ++ [EvSleep sleep_between])
    | Returned (v :: vs) =>
        ((None, store {| entry_book := book; entry_chapter := chapter;
                         entry_verses := v :: vs; raw_json_url := url |} st'),
         n2, evs2 ++ [EvSleep sleep_between])
    end.
Proof.
  intros Htarget Hfetch. unfold chapter_body. rewrite Htarget.
  unfold mbind at 1, M_bind at 1. rewrite Hfetch.
  destruct (negb (truthy data)); [reflexivity|].
  destruct (negb (truthy (locate_html_content data))); [reflexivity|].
  cbv zeta.
  destruct (extract (locate_html_content data)) as [[|v vs]|e]; reflexivity.
Qed.

Lemma chapters_loop_cons chapter rest st n :
  loop (chapter :: rest) st n =
  match body chapter st n with
  | ((None, st'), n', evs) => after evs (loop rest st' n')
  | ((Some exit, st'), n', evs) => ((Some exit, st'), n', evs ++ [])
  end.
Proof.
  simpl. unfold mbind, M_bind.
  destruct (body chapter st n) as [[[[exit|] st'] n'] evs]; [reflexivity|].
  unfold after, value, sent, events.
  by destruct (loop rest st' n') as [[? ?] ?].
Qed.

(** The loop over [pre ++ post] runs [post] where [pre] leaves off, unless
    [pre] is left early. *)
Lemma chapters_loop_app pre post st n :
  loop (pre ++ post) st n =
  match loop pre st n with
  | ((None, st1), n1, evs1) => after evs1 (loop post st1 n1)
  | r => r
  end.
Proof.
  revert st n. induction pre as [|chapter pre IH]; intros st n.
  - simpl. by rewrite after_nil.
  - rewrite <- app_comm_cons, !chapters_loop_cons.
    destruct (body chapter st n) as [[[[exit|] st'] n'] evs].
    + reflexivity.
    + rewrite IH. destruct (loop pre st' n') as [[[[exit|] st1] n1] evs1];
        unfold after, value, sent, events; simpl; [reflexivity|].
      by rewrite app_assoc.
Qed.

(** The first thing the loop does with a chapter is to request it. *)
Lemma chapters_loop_requests_first chapter rest st n url params :
  target_of chapter = Returned (url, params) →
  ∃ tail, events (loop (chapter :: rest) st n) = EvGet url params (net n) :: tail.
Proof.
  intros Htarget. rewrite chapters_loop_cons.
  destruct (fetch_json_with_retries net url params 3 5 n) as [[data n2] evs2] eqn:Hfetch.
  assert (∃ tail, evs2 = EvGet url params (net n) :: tail) as [tail ->].
  { unfold fetch_json_with_retries in Hfetch.
    change (py_range 3) with [0; 1; 2] in Hfetch.
    rewrite fetch_attempts_cons in Hfetch.
    destruct (net n) as [|status [d|]]; unfold after, events in Hfetch;
      simpl in Hfetch; injection Hfetch as _ _ <-; eauto. }
  rewrite (chapter_body_fetched _ _ _ _ _ _ _ _ Htarget Hfetch).
  repeat match goal with
         | |- context [if ?b then _ else _] => destruct b
         | |- context [match ?r with Returned _ => _ | Raised _ => _ end] => destruct r
         | |- context [match ?l with [] => _ | _ :: _ => _ end] => destruct l
         end; unfold after, events; simpl; eauto.
Qed.

(** The raw archive grows by the fragments of the documents delivered. *)
Lemma chapter_body_archive chapter st n :
  let r := body chapter st n in
  raw_html_accumulator (value r).2
  = raw_html_accumulator st ++ omap fragment_of (delivered (events r)).
Proof.
  destruct (target_of chapter) as [[url params]|e] eqn:Htarget.
  2: { cbv zeta. unfold chapter_body. rewrite Htarget. simpl. by rewrite app_nil_r. }
  destruct (fetch_json_with_retries net url params 3 5 n) as [[data n2] evs2] eqn:Hfetch.
  cbv zeta. rewrite (chapter_body_fetched _ _ _ _ _ _ _ _ Htarget Hfetch).
  pose proof (fetch_attempts_delivered net url params 5 (py_range 3) n) as Hd.
  cbv zeta in Hd. fold (fetch_json_with_retries net url params 3 5) in Hd.
  rewrite Hfetch in Hd. unfold value, events in Hd. simpl in Hd.
  assert (Hfrag : omap fragment_of (delivered evs2) = option_list (fragment_of data)).
  { destruct Hd as [[-> ->]| ->]; [reflexivity|]. simpl.
    by destruct (fragment_of data). }
  assert (Hsleep : ∀ evs, delivered (evs ++ [EvSleep sleep_between]) = delivered evs).
  { intros evs. unfold delivered. rewrite omap_app. simpl. by rewrite app_nil_r. }
  assert (Hf : fragment_of data
               = if truthy data && truthy (locate_html_content data)
                 then Some (locate_html_content data) else None) by reflexivity.
  destruct (truthy data); simpl in *.
  2: { unfold value, events. simpl. by rewrite Hsleep, Hfrag, Hf, app_nil_r. }
  destruct (truthy (locate_html_content data)); simpl in *.
  2: { unfold value, events. simpl. by rewrite !app_nil_r, Hfrag, Hf, app_nil_r. }
  destruct (extract (locate_html_content data)) as [[|v vs]|e];
    unfold value, events; simpl; by rewrite ?app_nil_r, ?Hsleep, Hfrag, Hf.
Qed.

Lemma chapters_loop_archive chapters st n :
  let r := loop chapters st n in
  raw_html_accumulator (value r).2
  = raw_html_accumulator st ++ omap fragment_of (delivered (events r)).
Proof.
  revert st n. induction chapters as [|chapter rest IH]; intros st n.
  - simpl. by rewrite app_nil_r.
  - cbv zeta. rewrite chapters_loop_cons.
    pose proof (chapter_body_archive chapter st n) as Hbody. cbv zeta in Hbody.
    destruct (body chapter st n) as [[[[exit|] st'] n'] evs].
    + unfold value, events in *. simpl in *. by rewrite app_nil_r.
    + specialize (IH st' n'). cbv zeta in IH.
      unfold after, value, events in *. simpl in *.
      unfold delivered in *. rewrite omap_app, omap_app, app_assoc, <- Hbody.
      exact IH.
Qed.

(** A document that is falsy holds no fragment. *)
Lemma falsy_document_has_no_fragment data :
  truthy data = false → locate_html_content data = JNull.
Proof.
  by destruct data as [|b|q|s|[|item items]|[|field fields]].
Qed.

(** C1, as the code has it: the loop is left by [break] at a chapter exactly
    when the document its fetch returns is truthy and the fragment located
    in it is falsy. When that happens the loop ends in the state and with
    the log it had right after that fetch: none of the chapters that follow
    is requested. *)
Theorem content_absent_stops_the_book
    pre chapter post st n st1 n1 evs1 url params data n2 evs2 :
  loop pre st n = ((None, st1), n1, evs1) →
  target_of chapter = Returned (url, params) →
  fetch_json_with_retries net url params 3 5 n1 = (data, n2, evs2) →
  ((value (body chapter st1 n1)).1 = Some Break
   ↔ truthy data = true ∧ truthy (locate_html_content data) = false)
  ∧ (truthy data = true → truthy (locate_html_content data) = false →
     loop (pre ++ chapter :: post) st n = ((Some Break, st1), n2, evs1 ++ evs2)).
Proof.
  intros Hpre Htarget Hfetch. split.
  - rewrite (chapter_body_fetched _ _ _ _ _ _ _ _ Htarget Hfetch).
    destruct (truthy data); simpl; [|by split; [|intros [? _]]].
    destruct (truthy (locate_html_content data)); simpl; [|done].
    unfold value.
    destruct (extract (locate_html_content data)) as [[|v vs]|e]; simpl;
      by split; [|intros [_ ?]].
  - intros Hdata Hcontent.
    rewrite chapters_loop_app, Hpre, chapters_loop_cons.
    rewrite (chapter_body_fetched _ _ _ _ _ _ _ _ Htarget Hfetch).
    rewrite Hdata, Hcontent. simpl.
    unfold after, value, sent, events. simpl. by rewrite app_nil_r, app_nil_r.
Qed.

(** C5, as the code has it: the raw archive grows by exactly the fragments
    of the documents delivered, in the order of delivery: one for each
    delivered document in which the fragment located is truthy, none for a
    document whose fragment is [None], an empty string or another falsy
    value. The fragment is appended before the verses are extracted: it is
    in the archive when the extraction finds no verse, and when the
    extraction raises. *)
Theorem raw_archive_holds_every_fragment_in_fetch_order :
  (∀ chapters st n,
     let r := loop chapters st n in
     raw_html_accumulator (value r).2
     = raw_html_accumulator st ++ omap fragment_of (delivered (events r)))
  ∧ (∀ data,
       fragment_of data
       = if truthy (locate_html_content data)
         then Some (locate_html_content data) else None)
  ∧ (∀ chapter rest st n url params data n2 evs2,
       target_of chapter = Returned (url, params) →
       fetch_json_with_retries net url params 3 5 n = (data, n2, evs2) →
       truthy data = true →
       truthy (locate_html_content data) = true →
       (extract (locate_html_content data) = Returned [] →
        loop (chapter :: rest) st n
        = after (evs2 ++ [EvSleep sleep_between])
            (loop rest (archive (locate_html_content data) st) n2))
       ∧ (∀ e, extract (locate_html_content data) = Raised e →
          loop (chapter :: rest) st n
          = ((Some (Uncaught e), archive (locate_html_content data) st), n2, evs2))).
Proof.
  split; [exact chapters_loop_archive|]. split.
  { intros data. unfold fragment_of.
    destruct (truthy data) eqn:Hdata; [done|].
    by rewrite (falsy_document_has_no_fragment _ Hdata). }
  intros chapter rest st n url params data n2 evs2 Htarget Hfetch Hdata Hcontent.
  split; [intros Hverses | intros e Hverses];
    rewrite chapters_loop_cons, (chapter_body_fetched _ _ _ _ _ _ _ _ Htarget Hfetch);
    rewrite Hdata, Hcontent; simpl; rewrite Hverses; [reflexivity|].
  by rewrite !app_nil_r.
Qed.

(** C6: a chapter whose fetch fails (it returns [None]), and a chapter
    whose fragment yields no verse, do not end the loop: after the polite
    delay the loop goes on with the chapters that follow, and the first
    thing it does is to request the next one. Nothing is stored for the
    chapter. *)
Theorem failed_fetch_and_empty_extraction_do_not_stop
    chapter next post st n url params data n2 evs2 url' params' :
  target_of chapter = Returned (url, params) →
  target_of next = Returned (url', params') →
  fetch_json_with_retries net url params 3 5 n = (data, n2, evs2) →
  data = JNull
  ∨ (truthy data = true ∧ truthy (locate_html_content data) = true
     ∧ extract (locate_html_content data) = Returned []) →
  ∃ st' tail,
    loop (chapter :: next :: post) st n
    = after (evs2 ++ [EvSleep sleep_between]) (loop (next :: post) st' n2)
    ∧ book_out st' = book_out st
    ∧ events (loop (chapter :: next :: post) st n)
      = evs2 ++ EvSleep sleep_between :: EvGet url' params' (net n2) :: tail.
Proof.
  intros Htarget Hnext Hfetch Hcase.
  assert (∃ st', loop (chapter :: next :: post) st n
                 = after (evs2 ++ [EvSleep sleep_between]) (loop (next :: post) st' n2)
                 ∧ book_out st' = book_out st) as (st' & Hloop & Hout).
  { rewrite chapters_loop_cons, (chapter_body_fetched _ _ _ _ _ _ _ _ Htarget Hfetch).
    destruct Hcase as [-> | (Hdata & Hcontent & Hverses)].
    - simpl. by exists st.
    - rewrite Hdata, Hcontent. simpl. rewrite Hverses. by eexists. }
  destruct (chapters_loop_requests_first next post st' n2 url' params' Hnext)
    as [tail Htail].
  exists st', tail. split; [done|]. split; [done|].
  rewrite Hloop. unfold after, events in *. cbn [snd].
  by rewrite Htail, <- app_assoc.
Qed.

(** C9: a fetch that delivers a document which is falsy (an empty object,
    an empty array, [null], zero, [false], an empty string) is handled as
    a fetch that failed: after the polite delay the loop goes on with the
    next chapter, with the book state as it was; the fragment is not looked
    for and the loop is not left. *)
Theorem falsy_document_is_skipped_like_a_failed_fetch
    chapter rest st n url params data n2 evs2 :
  target_of chapter = Returned (url, params) →
  fetch_json_with_retries net url params 3 5 n = (data, n2, evs2) →
  delivered evs2 = [data] →
  truthy data = false →
  body chapter st n = ((None, st), n2, evs2 ++ [EvSleep sleep_between])
  ∧ loop (chapter :: rest) st n
    = after (evs2 ++ [EvSleep sleep_between]) (loop rest st n2).
Proof.
  intros Htarget Hfetch _ Hdata.
  assert (Hbody : body chapter st n = ((None, st), n2, evs2 ++ [EvSleep sleep_between])).
  { rewrite (chapter_body_fetched _ _ _ _ _ _ _ _ Htarget Hfetch). by rewrite Hdata. }
  split; [exact Hbody|]. by rewrite chapters_loop_cons, Hbody.
Qed.

End AccumulatorFacts.

Lemma content_absent_stops_the_book_witness :
  ∃ st evs, demo_loop genesis_site [1; 2; 3; 4; 5] empty_book 0%nat
            = ((Some Break, st), 3%nat, evs).
Proof.
  eexists _, _.
  eapply (content_absent_stops_the_book genesis_site one_verse_parser
            "b1" "en-GB" "144" "MBB05" "bible" "GEN" (4 # 5) [1; 2] 3 [4; 5]);
    vm_compute; reflexivity.
Defined.

(** C1, as the specification states it, fails: a fetch that delivers an
    empty object has fetched a document in which no fragment is found, and
    the next chapter is requested all the same. *)
Lemma delivered_document_without_fragment_does_not_stop :
  ¬ (∀ (net : nat → response) chapter rest st n url params data n2 evs2,
       construct_json_url "b1" "en-GB" "144" "GEN" chapter "MBB05" "bible"
       = Returned (url, params) →
       fetch_json_with_retries net url params 3 5 n = (data, n2, evs2) →
       delivered evs2 = [data] →
       content_absent data →
       (value (demo_loop net (chapter :: rest) st n)).1 = Some Break
       ∧ sent (demo_loop net (chapter :: rest) st n) = n2).
Proof.
  intros H.
  destruct (H patchy_site 2 [3] empty_book 3%nat _ _ _ _ _
              ltac:(vm_compute; reflexivity) ltac:(vm_compute; reflexivity)
              ltac:(vm_compute; reflexivity) ltac:(vm_compute; reflexivity))
    as [Hexit _].
  vm_compute in Hexit. discriminate Hexit.
Qed.

(** C5, as the specification states it, fails: an empty string under
    [content] is a fragment that is not [None], and it is not archived. *)
Lemma non_null_fragment_is_not_always_archived :
  ¬ (∀ (net : nat → response) chapters st n,
       let r := demo_loop net chapters st n in
       raw_html_accumulator (value r).2
       = raw_html_accumulator st ++ omap non_null_fragment_of (delivered (events r))).
Proof.
  intros H. specialize (H blank_site [1] empty_book 0%nat).
  vm_compute in H. discriminate H.
Qed.

Lemma raw_archive_holds_every_fragment_in_fetch_order_witness :
  ∃ evs, demo_loop patchy_site [3] empty_book 4%nat
         = after evs (demo_loop patchy_site []
                        {| book_out := []; raw_html_accumulator := [JStr "   "] |} 5%nat).
Proof.
  destruct (raw_archive_holds_every_fragment_in_fetch_order
              patchy_site one_verse_parser "b1" "en-GB" "144" "MBB05" "bible" "GEN" (4 # 5))
    as (_ & _ & Hstep).
  edestruct (Hstep 3 [] empty_book 4%nat) as [Hempty _].
  - vm_compute. reflexivity.
  - vm_compute. reflexivity.
  - vm_compute. reflexivity.
  - vm_compute. reflexivity.
  - eexists. apply Hempty. vm_compute. reflexivity.
Defined.

Lemma failed_fetch_and_empty_extraction_do_not_stop_witness :
  (∃ st' evs,
     demo_loop patchy_site [1; 2; 3] empty_book 0%nat
     = after evs (demo_loop patchy_site [2; 3] st' 3%nat)
     ∧ book_out st' = [])
  ∧ (∃ st' evs,
       demo_loop patchy_site [3; 4] empty_book 4%nat
       = after evs (demo_loop patchy_site [4] st' 5%nat)
       ∧ book_out st' = []).
Proof.
  split.
  - edestruct (failed_fetch_and_empty_extraction_do_not_stop patchy_site one_verse_parser
                 "b1" "en-GB" "144" "MBB05" "bible" "GEN" (4 # 5) 1 2 [3] empty_book 0%nat)
      as (st' & tail & Hloop & Hout & _).
    + vm_compute. reflexivity.
    + vm_compute. reflexivity.
    + vm_compute. reflexivity.
    + left. reflexivity.
    + eexists _, _. split; [exact Hloop | exact Hout].
  - edestruct (failed_fetch_and_empty_extraction_do_not_stop patchy_site one_verse_parser
                 "b1" "en-GB" "144" "MBB05" "bible" "GEN" (4 # 5) 3 4 [] empty_book 4%nat)
      as (st' & tail & Hloop & Hout & _).
    + vm_compute. reflexivity.
    + vm_compute. reflexivity.
    + vm_compute. reflexivity.
    + right. repeat split; vm_compute; reflexivity.
    + eexists _, _. split; [exact Hloop | exact Hout].
Defined.

Lemma falsy_document_is_skipped_like_a_failed_fetch_witness :
  ∃ evs, demo_loop patchy_site [2; 3] empty_book 3%nat
         = after evs (demo_loop patchy_site [3] empty_book 4%nat).
Proof.
  edestruct (falsy_document_is_skipped_like_a_failed_fetch patchy_site one_verse_parser
               "b1" "en-GB" "144" "MBB05" "bible" "GEN" (4 # 5) 2 [3] empty_book 3%nat)
    as [_ Hloop].
  - vm_compute. reflexivity.
  - vm_compute. reflexivity.
  - vm_compute. reflexivity.
  - vm_compute. reflexivity.
  - eexists. exact Hloop.
Defined.

(** * Further properties *)

(** ** Strings *)

Lemma lstrip_fixed s :
  PyStr.lstrip s = s ↔
  match s with EmptyString => True | String c _ => PyStr.isspace c = false end.
Proof.
  destruct s as [|c s]; simpl; [done|].
  destruct (PyStr.isspace c) eqn:Hc; split; try done.
  intros H. assert (Hlen : String.length (PyStr.lstrip s) = S (String.length s))
    by by rewrite H.
  assert (∀ t, (String.length (PyStr.lstrip t) ≤ String.length t)%nat) as Hle.
  { clear. induction t as [|a t IH]; simpl; [lia|].
    destruct (PyStr.isspace a); simpl; lia. }
  specialize (Hle s). lia.
Qed.

Lemma lstrip_head s :
  match PyStr.lstrip s with
  | EmptyString => True
  | String c _ => PyStr.isspace c = false
  end.
Proof.
  induction s as [|c s IH]; simpl; [done|].
  destruct (PyStr.isspace c) eqn:Hc; [exact IH | exact Hc].
Qed.

Lemma rstrip_rstrip s : PyStr.rstrip (PyStr.rstrip s) = PyStr.rstrip s.
Proof.
  induction s as [|c s IH]; simpl; [done|].
  destruct (PyStr.isspace c && negb (PyStr.nonempty (PyStr.rstrip s))) eqn:Hc; [done|].
  simpl. by rewrite IH, Hc.
Qed.

(** What [rstrip] leaves of a string that starts with something other than
    a blank starts with it too. *)
Lemma rstrip_head c s :
  PyStr.isspace c = false →
  PyStr.rstrip (String c s) = String c (PyStr.rstrip s).
Proof. intros Hc. simpl. by rewrite Hc. Qed.

Lemma strip_head s :
  match PyStr.strip s with
  | EmptyString => True
  | String c _ => PyStr.isspace c = false
  end.
Proof.
  unfold PyStr.strip. pose proof (lstrip_head s) as H.
  destruct (PyStr.lstrip s) as [|c t]; [done|]. by rewrite (rstrip_head _ _ H).
Qed.

Lemma lstrip_strip s : PyStr.lstrip (PyStr.strip s) = PyStr.strip s.
Proof. apply lstrip_fixed, strip_head. Qed.

Lemma rstrip_strip s : PyStr.rstrip (PyStr.strip s) = PyStr.strip s.
Proof. unfold PyStr.strip. apply rstrip_rstrip. Qed.

Lemma strip_strip s : PyStr.strip (PyStr.strip s) = PyStr.strip s.
Proof.
  unfold PyStr.strip at 1. by rewrite lstrip_strip, rstrip_strip.
Qed.

Lemma rstrip_app a b :
  PyStr.nonempty (PyStr.rstrip b) = true →
  PyStr.rstrip (a +:+ b) = a +:+ PyStr.rstrip b.
Proof.
  intros Hb. induction a as [|c a IH]; simpl; [done|].
  rewrite IH. destruct (PyStr.rstrip b); [done|]. destruct a; simpl;
    by rewrite andb_false_r.
Qed.

Lemma nonempty_app_r a b : PyStr.nonempty b = true → PyStr.nonempty (a +:+ b) = true.
Proof. destruct a; simpl; done. Qed.

(** Joining trimmed, non-empty pieces with a separator gives a trimmed
    string. *)
Lemma join_trimmed sep parts :
  Forall (λ p, PyStr.nonempty p = true ∧ PyStr.strip p = p) parts →
  PyStr.strip (PyStr.join sep parts) = PyStr.join sep parts.
Proof.
  intros Hparts.
  assert (Hl : PyStr.lstrip (PyStr.join sep parts) = PyStr.join sep parts).
  { apply lstrip_fixed. destruct Hparts as [|p ps [Hne Hp] Hps]; [done|].
    assert (Hhead : match p with
                    | EmptyString => True
                    | String c _ => PyStr.isspace c = false
                    end) by (rewrite <- Hp; apply strip_head).
    destruct p as [|c p]; [by simpl in Hne|]. simpl. by destruct ps. }
  unfold PyStr.strip. rewrite Hl. clear Hl.
  induction Hparts as [|p ps [Hne Hp] Hps IH]; [done|].
  assert (Hr : PyStr.rstrip p = p) by (rewrite <- Hp; apply rstrip_strip).
  destruct ps as [|q ps]; [done|].
  change (PyStr.join sep (p :: q :: ps)) with (p +:+ sep +:+ PyStr.join sep (q :: ps)).
  assert (Hne' : PyStr.nonempty (PyStr.join sep (q :: ps)) = true).
  { apply Forall_inv in Hps as [Hq _]. destruct q; [by simpl in Hq|]. simpl. by destruct ps. }
  rewrite rstrip_app.
  - f_equal. rewrite rstrip_app; [by f_equal; apply IH | by rewrite IH].
  - rewrite rstrip_app; [by apply nonempty_app_r; rewrite IH | by rewrite IH].
Qed.

(** ** Content extractor: what the records hold *)

Lemma read_verse_trimmed v r :
  read_verse v = Some r →
  PyStr.nonempty (text r) = true
  ∧ PyStr.strip (text r) = text r
  ∧ ∀ label, verse r = Some label → PyStr.strip label = label.
Proof.
  unfold read_verse.
  set (source := match select_one span_content v with
                 | Some content_tag => content_tag
                 | None => v
                 end).
  assert (Hsource : match select_one span_content v with
                    | None => get_text_strip " " v
                    | Some content_tag => get_text_strip " " content_tag
                    end = get_text_strip " " source).
  { subst source. by destruct (select_one span_content v). }
  rewrite Hsource. clear Hsource.
  destruct (PyStr.nonempty (get_text_strip " " source)) eqn:Hne; [|done].
  intros [= <-]. simpl. split; [done|]. split.
  - apply join_trimmed, Forall_forall. intros p Hp.
    apply list_elem_of_In, filter_In in Hp as [Hp Hnonempty]. split; [done|].
    apply list_elem_of_In, list_elem_of_fmap in Hp as (s & -> & _). apply strip_strip.
  - intros label. destruct (select_one span_label v); [|done].
    intros [= <-]. apply strip_strip.
Qed.

Lemma verses_below_read n :
  ∀ in_verse r, r ∈ verses_below in_verse n → ∃ v, read_verse v = Some r.
Proof.
  induction n as [s|name classes contents IH|] using node_ind_nested;
    intros in_verse r Hr; try by apply elem_of_nil in Hr.
  rewrite verses_below_Tag in Hr.
  destruct (in_verse && matches span_note (Tag name classes contents));
    [by apply elem_of_nil in Hr|].
  apply elem_of_app in Hr as [Hr|Hr].
  - destruct (matches span_verse (Tag name classes contents));
      [|by apply elem_of_nil in Hr].
    destruct (read_verse (without_notes_below (Tag name classes contents))) as [r'|] eqn:Hread;
      [|by apply elem_of_nil in Hr].
    apply list_elem_of_singleton in Hr as ->. eauto.
  - apply list_elem_of_In, in_flat_map in Hr as (c & Hc & Hr).
    apply list_elem_of_In in Hc, Hr.
    rewrite Forall_forall in IH. by eapply (IH c Hc).
Qed.

(** X1: the text of every record the extractor returns is non-empty and has
    no blank at either end, and so has its label when it has one. *)
Theorem extracted_text_is_trimmed_and_not_empty (fragment : list node) r :
  r ∈ extract_verses fragment →
  PyStr.nonempty (text r) = true
  ∧ PyStr.strip (text r) = text r
  ∧ ∀ label, verse r = Some label → PyStr.strip label = label.
Proof.
  rewrite extract_verses_below. intros Hr.
  apply list_elem_of_In, in_flat_map in Hr as (n & _ & Hr).
  apply list_elem_of_In, verses_below_read in Hr as [v Hv].
  by apply (read_verse_trimmed v).
Qed.

Lemma extracted_text_is_trimmed_and_not_empty_witness :
  PyStr.nonempty "In the beginning" = true
  ∧ PyStr.strip "In the beginning" = "In the beginning"
  ∧ ∀ label, Some "1" = Some label → PyStr.strip label = label.
Proof.
  apply (extracted_text_is_trimmed_and_not_empty
           [span "verse" [span "label" [Text " 1 "]; span "content" [Text " In the beginning "]]]
           {| verse := Some "1"; text := "In the beginning" |}).
  vm_compute. constructor.
Defined.

(** X2: the verses of a fragment are those of its first part followed by
    those of the rest: the records come in the order of the document. *)
Theorem extract_verses_app (fragment1 fragment2 : list node) :
  extract_verses (fragment1 ++ fragment2)
  = extract_verses fragment1 ++ extract_verses fragment2.
Proof. rewrite !extract_verses_below. apply flat_map_app. Qed.

(** X3: an element that is not a verse container is looked through: the
    verses of the fragment it wraps are found as if it were not there. *)
Theorem extract_verses_looks_through name classes (contents : list node) :
  matches span_verse (Tag name classes contents) = false →
  extract_verses [Tag name classes contents] = extract_verses contents.
Proof.
  intros Hverse. rewrite !extract_verses_below. cbn [flat_map].
  rewrite verses_below_Tag, Hverse. simpl. by rewrite app_nil_r.
Qed.

Lemma extract_verses_looks_through_witness :
  extract_verses [Tag "div" ["chapter"; "verse"] [span "verse" [Text "In the beginning"]]]
  = extract_verses [span "verse" [Text "In the beginning"]].
Proof.
  apply (extract_verses_looks_through "div" ["chapter"; "verse"]).
  reflexivity.
Defined.

Lemma verses_loop_length vs soup acc :
  (length (verses_loop vs soup acc).1 ≤ length acc + length vs)%nat.
Proof.
  revert soup acc. induction vs as [|v vs IH]; intros soup acc; simpl; [lia|].
  etrans; [apply IH|].
  destruct (read_verse (subtree v (decompose_notes v soup)));
    rewrite ?length_app; simpl; lia.
Qed.

(** X4: a fragment yields at most one record for each verse container, and
    none when it has no verse container. *)
Theorem at_most_one_record_per_verse_container (fragment : list node) :
  (length (extract_verses fragment)
   ≤ length (select span_verse (document fragment)))%nat.
Proof. unfold extract_verses. apply (verses_loop_length _ _ []). Qed.

(** ** Resilient fetcher: what it looks at and what it logs *)

Section FetcherMore.

Variables (url : string) (params : list (string * string)) (backoff : Z).

Lemma fetch_attempts_status_blind net net' attempts n :
  (∀ i, body_of (net i) = body_of (net' i)) →
  let run := fetch_attempts net url params backoff attempts n in
  let run' := fetch_attempts net' url params backoff attempts n in
  value run = value run' ∧ sent run = sent run'
  ∧ sleeps (events run) = sleeps (events run').
Proof.
  intros Hsame. revert n. induction attempts as [|attempt rest IH]; intros n; [done|].
  cbv zeta. rewrite !fetch_attempts_cons. specialize (IH (S n)). cbv zeta in IH.
  destruct IH as (Hv & Hs & Hw). specialize (Hsame n).
  destruct (net n) as [|status [data|]], (net' n) as [|status' [data'|]];
    simplify_eq/=; try done;
    unfold after, value, sent, events, sleeps in *; simpl; by rewrite ?Hv, ?Hs, ?Hw.
Qed.

Lemma fetch_attempts_alternate net attempts n i e :
  events (fetch_attempts net url params backoff attempts n) !! i = Some e →
  is_get e = Nat.even i.
Proof.
  revert n i. induction attempts as [|attempt rest IH]; intros n i; [done|].
  rewrite fetch_attempts_cons.
  destruct (net n) as [|status [data|]]; unfold after, events; simpl.
  - destruct i as [|[|i]]; simpl; [by intros [= <-] | by intros [= <-] |].
    apply IH.
  - destruct i as [|i]; simpl; [by intros [= <-] | done].
  - destruct i as [|[|i]]; simpl; [by intros [= <-] | by intros [= <-] |].
    apply IH.
Qed.

Lemma fetch_attempts_returns_last_reply net attempts n :
  let run := fetch_attempts net url params backoff attempts n in
  value run ≠ JNull →
  ∃ status, last (events run) = Some (EvGet url params (Reply status (Some (value run)))).
Proof.
  revert n. induction attempts as [|attempt rest IH]; intros n; [done|].
  cbv zeta. rewrite fetch_attempts_cons.
  assert (Hlast : ∀ (r : json * nat * list event) e1 e2 status,
            last (events r) = Some (EvGet url params (Reply status (Some (value r)))) →
            last (events (after [e1; e2] r))
            = Some (EvGet url params (Reply status (Some (value (after [e1; e2] r)))))).
  { intros [[v m] evs] e1 e2 status. unfold after, value, events. cbn [fst snd].
    intros H. by rewrite last_app, H. }
  destruct (net n) as [|status [data|]] eqn:Hn.
  - intros H. destruct (IH (S n)) as [status Hs]; [exact H|]. eauto.
  - intros _. by exists status.
  - intros H. destruct (IH (S n)) as [status' Hs]; [exact H|]. eauto.
Qed.

Lemma fetch_attempts_waits net len a n secs :
  0 ≤ backoff →
  EvSleep secs ∈ events (fetch_attempts net url params backoff
                          (map Z.of_nat (seq a len)) n) →
  ∃ wait, secs = inject_Z wait ∧ backoff ≤ wait ≤ backoff * Z.of_nat (a + len).
Proof.
  intros Hb. revert a n. induction len as [|len IH]; intros a n.
  - simpl. intros H. by apply elem_of_nil in H.
  - simpl seq. simpl map. rewrite fetch_attempts_cons.
    assert (Hrest : EvSleep secs ∈ events (fetch_attempts net url params backoff
                                            (map Z.of_nat (seq (S a) len)) (S n)) →
            ∃ wait, secs = inject_Z wait ∧ backoff ≤ wait ≤ backoff * Z.of_nat (a + S len)).
    { intros H. destruct (IH _ _ H) as (w & -> & Hw). exists w. split; [done|].
      replace (a + S len)%nat with (S a + len)%nat by lia. done. }
    destruct (net n) as [|status [data|]]; unfold after, events; simpl; intros H.
    + apply elem_of_cons in H as [H|H]; [done|].
      apply elem_of_cons in H as [[= ->]|H]; [|by apply Hrest].
      exists backoff. split; [done|]. nia.
    + apply elem_of_cons in H as [H|H]; [done|]. by apply elem_of_nil in H.
    + apply elem_of_cons in H as [H|H]; [done|].
      apply elem_of_cons in H as [[= ->]|H]; [|by apply Hrest].
      exists (backoff * (Z.of_nat a + 1)). split; [done|]. nia.
Qed.

End FetcherMore.

(** X5: the fetcher never looks at the status code. Two sites whose replies
    differ in their status codes only get the same result, after the same
    number of requests and the same waits: a 403 or a 429 with a JSON body
    is a success, one with another body is retried like any page. *)
Theorem fetch_ignores_the_status_code net net' url params retries backoff n :
  (∀ i, body_of (net i) = body_of (net' i)) →
  let run := fetch_json_with_retries net url params retries backoff n in
  let run' := fetch_json_with_retries net' url params retries backoff n in
  value run = value run' ∧ sent run = sent run'
  ∧ sleeps (events run) = sleeps (events run').
Proof. intros H. by apply fetch_attempts_status_blind. Qed.

Lemma fetch_ignores_the_status_code_witness :
  value (fetch_json_with_retries third_time_lucky "u" [] 3 5 0%nat)
  = value (fetch_json_with_retries
             (λ i, match third_time_lucky i with
                   | Reply _ body => Reply 429 body
                   | NetworkError => NetworkError
                   end) "u" [] 3 5 0%nat).
Proof.
  apply (fetch_ignores_the_status_code third_time_lucky
           (λ i, match third_time_lucky i with
                 | Reply _ body => Reply 429 body
                 | NetworkError => NetworkError
                 end) "u" [] 3 5 0%nat).
  intros i. simpl. by destruct (third_time_lucky i).
Defined.

(** X6: the log of a fetch alternates: a request, a wait, a request, ...;
    no request follows a failed one without a wait in between. *)
Theorem fetch_waits_between_requests net url params retries backoff n i e :
  events (fetch_json_with_retries net url params retries backoff n) !! i = Some e →
  is_get e = Nat.even i.
Proof. apply fetch_attempts_alternate. Qed.

Lemma fetch_waits_between_requests_witness :
  is_get (EvSleep (inject_Z 5)) = Nat.even 1.
Proof.
  apply (fetch_waits_between_requests third_time_lucky "u" [] 3 5 0%nat 1%nat).
  reflexivity.
Defined.

(** X7: a result other than [None] is the document of the last reply: the
    log of the fetch ends with the request that brought it. *)
Theorem fetched_document_is_the_last_reply net url params retries backoff n :
  let run := fetch_json_with_retries net url params retries backoff n in
  value run ≠ JNull →
  ∃ status, last (events run) = Some (EvGet url params (Reply status (Some (value run)))).
Proof. apply fetch_attempts_returns_last_reply. Qed.

Lemma fetched_document_is_the_last_reply_witness :
  ∃ status,
    last (events (fetch_json_with_retries third_time_lucky "u" [] 3 5 0%nat))
    = Some (EvGet "u" [] (Reply status (Some (JObj [("attempt", JNum 3)])))).
Proof.
  apply (fetched_document_is_the_last_reply third_time_lucky "u" [] 3 5 0%nat).
  vm_compute. discriminate.
Defined.

(** X8: with a backoff that is not negative, every wait of a fetch lasts a
    whole number of seconds between [backoff] and [backoff * retries]. *)
Theorem fetch_waits_are_bounded net url params retries backoff n secs :
  0 ≤ backoff →
  EvSleep secs ∈ events (fetch_json_with_retries net url params retries backoff n) →
  ∃ wait, secs = inject_Z wait ∧ backoff ≤ wait ≤ backoff * retries.
Proof.
  intros Hb H. unfold fetch_json_with_retries, py_range in H.
  destruct (fetch_attempts_waits url params backoff net _ _ _ _ Hb H) as (w & -> & Hw).
  exists w. split; [done|]. simpl in Hw.
  destruct (Z.to_nat retries) eqn:Hr.
  - simpl in H. by apply elem_of_nil in H.
  - lia.
Qed.

Lemma fetch_waits_are_bounded_witness :
  ∃ wait, inject_Z 10 = inject_Z wait ∧ 5 ≤ wait ≤ 5 * 3.
Proof.
  apply (fetch_waits_are_bounded third_time_lucky "u" [] 3 5 0%nat (inject_Z 10)).
  - lia.
  - vm_compute. do 4 constructor.
Defined.

(** ** Book accumulator: what a book holds *)

Section AccumulatorMore.

Variable net : nat → response.
Variable BeautifulSoup : json → py_result (list node).
Variables build_id locale version_id version_code route book : string.
Variable sleep_between : Q.

Local Abbreviation target_of chapter :=
  (construct_json_url build_id locale version_id book chapter version_code route).
Local Abbreviation body :=
  (chapter_body net BeautifulSoup build_id locale version_id version_code
     route book sleep_between).
Local Abbreviation loop :=
  (chapters_loop net BeautifulSoup build_id locale version_id version_code
     route book sleep_between).
Local Abbreviation extract := (extract_verses_from_chapter_html BeautifulSoup).

(** What an entry stored for [chapter] is made of. *)
Local Abbreviation stored_for chapter e :=
  (entry_book e = book ∧ entry_chapter e = chapter%Z ∧ entry_verses e ≠ []
   ∧ (∃ html_content, extract html_content = Returned (entry_verses e))
   ∧ ∃ params, target_of chapter = Returned (raw_json_url e, params)).

(** One turn of the loop: at most one fragment is archived, at most one
    entry is stored and only with its fragment, at most three requests are
    sent, and the loop goes on only after the polite delay. *)
Lemma chapter_body_turn chapter st n :
  let r := body chapter st n in
  ∃ new fragments,
    book_out (value r).2 = book_out st ++ new
    ∧ raw_html_accumulator (value r).2 = raw_html_accumulator st ++ fragments
    ∧ (length new ≤ length fragments)%nat ∧ (length fragments ≤ 1)%nat
    ∧ Forall (λ e, stored_for chapter e) new
    ∧ (length (List.filter is_get (events r)) ≤ 3)%nat
    ∧ ((value r).1 = None →
       ∃ evs, events r = evs ++ [EvSleep sleep_between]).
Proof.
  cbv zeta. destruct (target_of chapter) as [[url params]|e] eqn:Htarget.
  2: { unfold construct_json_url in Htarget. discriminate Htarget. }
  destruct (fetch_json_with_retries net url params 3 5 n) as [[data n2] evs2] eqn:Hfetch.
  rewrite (chapter_body_fetched _ _ _ _ _ _ _ _ _ _ _ _ _ _ _ _ _ Htarget Hfetch).
  pose proof (fetch_attempts_bounded net url params 5 (py_range 3) n) as Hgets.
  fold (fetch_json_with_retries net url params 3 5) in Hgets.
  rewrite Hfetch in Hgets. unfold events in Hgets. simpl in Hgets.
  assert (Hgets' : ∀ tail, List.filter is_get tail = [] →
            (length (List.filter is_get (evs2 ++ tail)) ≤ 3)%nat).
  { intros tail Htail. by rewrite List.filter_app, Htail, app_nil_r. }
  destruct (negb (truthy data)).
  { exists [], []. unfold value, events. simpl. rewrite !app_nil_r.
    repeat split; try done; try lia; [by apply Hgets' | eauto]. }
  destruct (negb (truthy (locate_html_content data))).
  { exists [], []. unfold value, events. simpl. rewrite !app_nil_r.
    repeat split; try done; lia. }
  cbv zeta.
  destruct (extract (locate_html_content data)) as [[|v vs]|e] eqn:Hverses.
  - exists [], [locate_html_content data]. unfold value, events. simpl.
    rewrite !app_nil_r. repeat split; try done; try lia; [by apply Hgets' | eauto].
  - eexists [_], [locate_html_content data]. unfold value, events. simpl.
    repeat split; try done; try lia; [| by apply Hgets' | eauto].
    constructor; [|constructor]. simpl. repeat split; try done; eauto.
  - exists [], [locate_html_content data]. unfold value, events. simpl.
    rewrite !app_nil_r. repeat split; try done; lia.
Qed.

Lemma chapters_loop_turns chapters st n :
  let r := loop chapters st n in
  ∃ new fragments,
    book_out (value r).2 = book_out st ++ new
    ∧ raw_html_accumulator (value r).2 = raw_html_accumulator st ++ fragments
    ∧ (length new ≤ length fragments)%nat
    ∧ (length fragments ≤ length chapters)%nat
    ∧ Forall (λ e, ∃ chapter, stored_for chapter e) new
    ∧ map entry_chapter new `sublist_of` chapters
    ∧ (length (List.filter is_get (events r)) ≤ 3 * length chapters)%nat.
Proof.
  revert st n. induction chapters as [|chapter rest IH]; intros st n.
  - exists [], []. simpl. rewrite !app_nil_r. repeat split; try done; lia.
  - cbv zeta. rewrite chapters_loop_cons.
    destruct (chapter_body_turn chapter st n)
      as (new & fragments & Hout & Hraw & Hlen & Hone & Hnew & Hgets & _).
    assert (Hsub : map entry_chapter new `sublist_of` [chapter]).
    { destruct new as [|e [|e' new]]; simpl in *; [apply sublist_nil_l | | lia].
      apply Forall_inv in Hnew as (_ & -> & _). done. }
    assert (Hnew' : Forall (λ e, ∃ chapter, stored_for chapter e) new).
    { eapply Forall_impl; [exact Hnew|]. intros e He. by exists chapter. }
    destruct (body chapter st n) as [[[[exit|] st'] n'] evs];
      unfold after, value, sent, events in *; cbn [fst snd] in *.
    + exists new, fragments. rewrite app_nil_r. simpl length.
      split; [done|]. split; [done|]. split; [lia|]. split; [lia|].
      split; [done|]. split; [|lia].
      etrans; [exact Hsub|]. apply sublist_skip, sublist_nil_l.
    + destruct (IH st' n')
        as (new2 & fragments2 & Hout2 & Hraw2 & Hlen2 & Hrest2 & Hnew2 & Hsub2 & Hgets2).
      exists (new ++ new2), (fragments ++ fragments2).
      rewrite Hout2, Hraw2, Hout, Hraw, <- !app_assoc, !length_app, List.filter_app,
        length_app, map_app. simpl length.
      split; [done|]. split; [done|]. split; [lia|]. split; [lia|].
      split; [by apply Forall_app|]. split; [|lia].
      by apply (sublist_app _ [chapter] _ rest).
Qed.

(** X9: every entry the loop stores carries the book code, a list of verses
    that is not empty and that the extractor returned, and the URL of the
    request built for the chapter it is stored under. *)
Theorem stored_entries_are_complete chapters st n :
  ∃ new,
    book_out (value (loop chapters st n)).2 = book_out st ++ new
    ∧ Forall (λ e,
        entry_book e = book ∧ entry_verses e ≠ []
        ∧ (∃ html_content, extract html_content = Returned (entry_verses e))
        ∧ ∃ params, target_of (entry_chapter e) = Returned (raw_json_url e, params))
      new.
Proof.
  destruct (chapters_loop_turns chapters st n)
    as (new & _ & Hout & _ & _ & _ & Hnew & _).
  exists new. split; [done|]. eapply Forall_impl; [exact Hnew|].
  intros e (chapter & Hbook & <- & Hverses & Hextract & Hurl). done.
Qed.

(** X10: the chapters stored are chapters of the list, in the order of the
    list and each at most as often as the list names it. *)
Theorem stored_chapters_follow_the_list chapters st n :
  ∃ new,
    book_out (value (loop chapters st n)).2 = book_out st ++ new
    ∧ map entry_chapter new `sublist_of` chapters.
Proof.
  destruct (chapters_loop_turns chapters st n)
    as (new & _ & Hout & _ & _ & _ & _ & Hsub & _).
  by exists new.
Qed.

(** X11: the loop sends at most three requests for each chapter of the
    list. *)
Theorem at_most_three_requests_per_chapter chapters st n :
  (length (List.filter is_get (events (loop chapters st n))) ≤ 3 * length chapters)%nat.
Proof.
  by destruct (chapters_loop_turns chapters st n)
    as (_ & _ & _ & _ & _ & _ & _ & _ & Hgets).
Qed.

(** X12: no chapter is stored without its fragment in the raw archive, and
    at most one fragment is archived for each chapter of the list. *)
Theorem every_stored_chapter_is_archived chapters st n :
  ∃ new fragments,
    book_out (value (loop chapters st n)).2 = book_out st ++ new
    ∧ raw_html_accumulator (value (loop chapters st n)).2
      = raw_html_accumulator st ++ fragments
    ∧ (length new ≤ length fragments ≤ length chapters)%nat.
Proof.
  destruct (chapters_loop_turns chapters st n)
    as (new & fragments & Hout & Hraw & Hlen & Hrest & _).
  by exists new, fragments.
Qed.


End AccumulatorMore.


(** ** Catalog resolver: books, and how the resolution fails *)

Lemma book_entry_fields book b :
  book_entry book = Returned b →
  py_getitem book "usfm" = Returned (book_code b)
  ∧ py_getitem book "human" = Returned (book_name b).
Proof.
  unfold book_entry.
  destruct (book_chapters book) as [chs|]; simpl; [|discriminate].
  destruct (py_getitem book "usfm") as [usfm|]; simpl; [|discriminate].
  destruct (py_getitem book "human") as [human|]; simpl; [|discriminate].
  by intros [= <-].
Qed.

Lemma books_for_fields books acc result :
  py_for books (λ book result, b ← book_entry book; mret (result ++ [b])) acc
  = Returned result →
  ∃ new, result = acc ++ new
         ∧ Forall2 (λ book b, py_getitem book "usfm" = Returned (book_code b)
                              ∧ py_getitem book "human" = Returned (book_name b))
             books new.
Proof.
  revert acc. induction books as [|book books IH]; intros acc; simpl.
  - intros [= <-]. exists []. by rewrite app_nil_r.
  - destruct (book_entry book) as [b|] eqn:Hb; simpl; [|discriminate].
    intros H. apply IH in H as (new & -> & Hnew).
    exists (b :: new). rewrite <- app_assoc. split; [done|].
    constructor; [by apply book_entry_fields | done].
Qed.

(** X14: the result has one entry for each book of the metadata, in the
    order of the metadata, with the [usfm] field of the book as its code and
    the [human] field as its name. *)
Theorem catalog_lists_every_book_in_source_order data result :
  books_and_chapters data = Returned result →
  ∃ books,
    (py_get data "books" (JArr []) ≫= py_iter) = Returned books
    ∧ Forall2 (λ book b, py_getitem book "usfm" = Returned (book_code b)
                         ∧ py_getitem book "human" = Returned (book_name b))
        books result.
Proof.
  unfold books_and_chapters.
  destruct (py_get data "books" (JArr []) ≫= py_iter) as [books|]; simpl; [|discriminate].
  intros H. apply books_for_fields in H as (new & -> & ?). by exists books.
Qed.

Lemma catalog_lists_every_book_in_source_order_witness :
  ∃ books,
    (py_get genesis_catalog "books" (JArr []) ≫= py_iter) = Returned books
    ∧ Forall2 (λ book b, py_getitem book "usfm" = Returned (book_code b)
                         ∧ py_getitem book "human" = Returned (book_name b))
        books
        [{| book_code := JStr "GEN"; book_name := JStr "Genesis"; chapters := [1; 2] |}].
Proof.
  apply (catalog_lists_every_book_in_source_order genesis_catalog).
  vm_compute. reflexivity.
Defined.

(** The loop over the books ends with the exception of the first book that
    raises. *)
Lemma py_for_first_raise {A S} (body : A → S → py_result S) pre x post acc acc' e :
  py_for pre body acc = Returned acc' →
  body x acc' = Raised e →
  py_for (pre ++ x :: post) body acc = Raised e.
Proof.
  revert acc. induction pre as [|y pre IH]; intros acc; simpl.
  - intros [= <-] Hx. by rewrite Hx.
  - destruct (body y acc) as [acc1|]; simpl; [|discriminate]. apply IH.
Qed.

Lemma books_for_resolved pre acc :
  Forall (λ book, ∃ b, book_entry book = Returned b) pre →
  ∃ acc', py_for pre (λ book result, b ← book_entry book; mret (result ++ [b])) acc
          = Returned acc'.
Proof.
  intros Hpre. revert acc. induction Hpre as [|book pre [b Hb] _ IH]; intros acc; simpl.
  - by exists acc.
  - rewrite Hb. simpl. apply IH.
Qed.

(** X15: one book that cannot be read spoils the whole catalogue: when the
    books before it resolve and it raises, the resolver raises the same
    exception, whatever comes after, and the books resolved are lost. *)
Theorem one_bad_book_spoils_the_catalog data pre book post e :
  (py_get data "books" (JArr []) ≫= py_iter) = Returned (pre ++ book :: post) →
  Forall (λ book, ∃ b, book_entry book = Returned b) pre →
  book_entry book = Raised e →
  books_and_chapters data = Raised e.
Proof.
  intros Hbooks Hpre Hbook. unfold books_and_chapters. rewrite Hbooks. simpl.
  destruct (books_for_resolved pre [] Hpre) as [acc' Hacc].
  apply (py_for_first_raise _ _ _ _ _ _ _ Hacc). by rewrite Hbook.
Qed.

Lemma one_bad_book_spoils_the_catalog_witness :
  books_and_chapters
    (JObj [("books", JArr [JObj [("usfm", JStr "GEN"); ("human", JStr "Genesis")];
                           JObj [("human", JStr "Exodus")];
                           JObj [("usfm", JStr "LEV"); ("human", JStr "Leviticus")]])])
  = Raised KeyError.
Proof.
  apply (one_bad_book_spoils_the_catalog _
           [JObj [("usfm", JStr "GEN"); ("human", JStr "Genesis")]]
           (JObj [("human", JStr "Exodus")])
           [JObj [("usfm", JStr "LEV"); ("human", JStr "Leviticus")]]).
  - reflexivity.
  - constructor; [|constructor]. eexists. vm_compute. reflexivity.
  - reflexivity.
Defined.

Lemma int_digits_not_decimal acc s :
  PyStr.all PyStr.isdecimal s = false → PyStr.int_digits acc s = Raised ValueError.
Proof.
  revert acc. induction s as [|c s IH]; intros acc; simpl; [done|].
  destruct (PyStr.isdecimal c); simpl; [apply IH | done].
Qed.

(** X16: a label that [isdigit] accepts and that is not made of the decimal
    digits alone, such as a superscript two, makes the entry raise
    [ValueError] when it is canonical: [int] does not read it. *)
Theorem superscript_label_raises fields s :
  assoc "human" fields = Some (JStr s) →
  flagged_canonical (JObj fields) = true →
  PyStr.isdigit (PyStr.strip s) = true →
  digit_string (PyStr.strip s) = false →
  chapter_number (JObj fields) = Raised ValueError.
Proof.
  intros Hlabel Hflag Hisdigit Hdecimal.
  unfold chapter_number. simpl. rewrite Hlabel. simpl.
  assert (Htruthy : truthy (default (JBool true) (assoc "canonical" fields)) = true).
  { unfold flagged_canonical in Hflag. by destruct (assoc "canonical" fields). }
  rewrite Htruthy, Hisdigit. simpl.
  unfold digit_string in Hdecimal. unfold PyStr.isdigit in Hisdigit.
  apply andb_prop in Hisdigit as [Hne _]. rewrite Hne in Hdecimal. simpl in Hdecimal.
  unfold PyStr.int. rewrite Hne.
  destruct (PyStr.max_str_digits <? Z.of_nat (String.length (PyStr.strip s))); [done|].
  by rewrite (int_digits_not_decimal _ _ Hdecimal).
Qed.

Lemma superscript_label_raises_witness :
  chapter_number (JObj [("human", JStr (String "178" "")); ("canonical", JBool true)])
  = Raised ValueError.
Proof.
  apply (superscript_label_raises _ (String "178" "")); reflexivity.
Defined.

(** ** Request builder: one target for each chapter *)

Lemma append_cancel_l a x y : a +:+ x = a +:+ y → x = y.
Proof.
  induction a as [|c a IH]; [done|].
  change (String c a +:+ ?z) with (String c (a +:+ z)). intros [= H]. by apply IH.
Qed.

Lemma length_append a b : String.length (a +:+ b) = (String.length a + String.length b)%nat.
Proof.
  induction a as [|c a IH]; [done|].
  change (String c a +:+ b) with (String c (a +:+ b)). simpl. by rewrite IH.
Qed.

Lemma append_cancel_r b x y : x +:+ b = y +:+ b → x = y.
Proof.
  revert y. induction x as [|c x IH]; intros [|d y] H; [done| | |].
  - apply (f_equal String.length) in H. rewrite (length_append (String d y) b) in H.
    change (String.length ("" +:+ b)) with (String.length b) in H. simpl in H. lia.
  - apply (f_equal String.length) in H. rewrite (length_append (String c x) b) in H.
    change (String.length ("" +:+ b)) with (String.length b) in H. simpl in H. lia.
  - change (String c (x +:+ b) = String d (y +:+ b)) in H.
    injection H as -> H. f_equal. by apply IH.
Qed.

Lemma of_int_inj m n : PyStr.of_int m = PyStr.of_int n → m = n.
Proof.
  unfold PyStr.of_int. intros H.
  assert (Hnil : ∀ z, Z.to_int z ≠ Decimal.Pos Decimal.Nil
                      ∧ Z.to_int z ≠ Decimal.Neg Decimal.Nil).
  { intros z. split; intros Hz; pose proof (DecimalZ.of_to z) as Hof;
      rewrite Hz in Hof; simpl in Hof; subst z; discriminate Hz. }
  apply (f_equal NilZero.int_of_string) in H.
  rewrite !NilZero.isi in H by apply Hnil.
  injection H as H. by apply DecimalZ.to_int_inj.
Qed.

(** X18: with the other inputs fixed, two chapters that differ never get
    the same URL. *)
Theorem one_url_per_chapter build_id locale version_id book version_code route
    chapter1 chapter2 target1 target2 :
  chapter1 ≠ chapter2 →
  construct_json_url build_id locale version_id book chapter1 version_code route
  = Returned target1 →
  construct_json_url build_id locale version_id book chapter2 version_code route
  = Returned target2 →
  target1.1 ≠ target2.1.
Proof.
  unfold construct_json_url. intros Hne [= <-] [= <-]. simpl. intros H. apply Hne.
  repeat apply append_cancel_l in H.
  apply append_cancel_r in H. apply append_cancel_l in H.
  change ("." +:+ ?x) with (String "." x) in H.
  injection H as H. apply append_cancel_r in H. by apply of_int_inj.
Qed.

Lemma one_url_per_chapter_witness :
  3 ≠ 31
  ∧ "https://www.bible.com/_next/data/b1/en-GB/bible/144/GEN.3.MBB05.json"
    ≠ "https://www.bible.com/_next/data/b1/en-GB/bible/144/GEN.31.MBB05.json".
Proof.
  split; [lia|].
  apply (one_url_per_chapter "b1" "en-GB" "144" "GEN" "MBB05" "bible" 3 31
           ("https://www.bible.com/_next/data/b1/en-GB/bible/144/GEN.3.MBB05.json",
            [("versionId", "144"); ("usfm", "GEN.3.MBB05")])
           ("https://www.bible.com/_next/data/b1/en-GB/bible/144/GEN.31.MBB05.json",
            [("versionId", "144"); ("usfm", "GEN.31.MBB05")])).
  - lia.
  - vm_compute. reflexivity.
  - vm_compute. reflexivity.
Defined.

(** ** Content extractor: where the fragment comes from *)

Lemma assoc_elem k fields v : assoc k fields = Some v → (k, v) ∈ fields.
Proof.
  induction fields as [|[k' v'] fields IH]; simpl; [done|].
  destruct (String.eqb k k') eqn:Hk.
  - apply String.eqb_eq in Hk as ->. intros [= ->]. by left.
  - intros H. right. by apply IH.
Qed.

Lemma find_content_holds d :
  find_content d = JNull
  ∨ ∃ s, find_content d = JStr s ∧ holds_key "content" d s.
Proof.
  induction d as [| | | |items IH|fields IH] using json_ind_nested;
    try (by left).
  - simpl.
    match goal with
    | |- ?search items = _ ∨ _ =>
        enough (search items = JNull
                ∨ ∃ s item, search items = JStr s ∧ item ∈ items
                            ∧ holds_key "content" item s)
          as [Hnone|(s & item & Hs & Hin & Hholds)]
    end.
    + by left.
    + right. exists s. split; [exact Hs|]. by eapply holds_key_item.
    + induction IH as [|item rest Hitem _ IHrest]; [by left|]. cbv zeta.
      destruct (truthy (find_content item)) eqn:Hfound.
      * destruct Hitem as [Hnone|(s & Hs & Hholds)]; [by rewrite Hnone in Hfound|].
        right. exists s, item. repeat split; [done | by left | done].
      * destruct IHrest as [Hnone|(s & item' & Hs & Hin & Hholds)]; [by left|].
        right. exists s, item'. repeat split; [done | by right | done].
  - simpl.
    match goal with
    | |- ?search fields = _ ∨ _ =>
        enough (search fields = JNull
                ∨ ∃ s, search fields = JStr s
                       ∧ ((("content", JStr s) ∈ fields)
                          ∨ ∃ k v, (k, v) ∈ fields ∧ holds_key "content" v s))
          as [Hnone|(s & Hs & [Hin|(k & v & Hin & Hholds)])]
    end.
    + by left.
    + right. exists s. split; [exact Hs|]. by apply holds_key_here.
    + right. exists s. split; [exact Hs|]. by eapply holds_key_field.
    + induction IH as [|[k v] rest Hv _ IHrest]; [by left|].
      destruct (String.eqb k "content" && is_str v) eqn:Hkey.
      * apply andb_prop in Hkey as [Hk Hstr]. apply String.eqb_eq in Hk as ->.
        destruct v; try discriminate. right. eexists. split; [done|]. left. by left.
      * cbv zeta. simpl in Hv. destruct (truthy (find_content v)) eqn:Hfound.
        -- destruct Hv as [Hnone|(s & Hs & Hholds)]; [by rewrite Hnone in Hfound|].
           right. exists s. split; [done|]. right. exists k, v. split; [by left | done].
        -- destruct IHrest as [Hnone|(s & Hs & [Hin|(k' & v' & Hin & Hholds)])];
             [by left | |].
           ++ right. exists s. split; [done|]. left. by right.
           ++ right. exists s. split; [done|]. right. exists k', v'.
              split; [by right | done].
Qed.

(** X19: the structural search returns [None] or a string, and a string it
    returns is the value of a [content] key of the document. *)
Theorem find_content_is_sound d :
  find_content d = JNull
  ∨ ∃ s, find_content d = JStr s ∧ holds_key "content" d s.
Proof. apply find_content_holds. Qed.

(** X20: a string that is located as the fragment of a document is the
    value of a [content] key of that document. *)
Theorem located_fragment_is_a_content_field data s :
  locate_html_content data = JStr s → holds_key "content" data s.
Proof.
  unfold locate_html_content.
  destruct data as [| | | |?|fields]; try done. simpl.
  destruct (assoc "pageProps" fields) as [pageProps|] eqn:Hpp; simpl.
  - destruct pageProps as [| | | |?|fields2]; try done. simpl.
    destruct (assoc "chapterInfo" fields2) as [chapterInfo|] eqn:Hci; simpl.
    + destruct chapterInfo as [| | | |?|fields3]; try done. simpl.
      destruct (assoc "content" fields3) as [content|] eqn:Hc; simpl.
      * destruct (truthy content) eqn:Htruthy.
        -- intros ->. eapply holds_key_field; [by apply assoc_elem|].
           eapply holds_key_field; [by apply assoc_elem|].
           by apply holds_key_here, assoc_elem.
        -- intros H. destruct (find_content_holds (JObj fields))
             as [Hnone|(s' & Hs' & Hholds)]; simpl in *; congruence.
      * intros H. destruct (find_content_holds (JObj fields))
          as [Hnone|(s' & Hs' & Hholds)]; simpl in *; congruence.
    + intros H. destruct (find_content_holds (JObj fields))
        as [Hnone|(s' & Hs' & Hholds)]; simpl in *; congruence.
  - intros H. destruct (find_content_holds (JObj fields))
      as [Hnone|(s' & Hs' & Hholds)]; simpl in *; congruence.
Qed.

Lemma located_fragment_is_a_content_field_witness :
  holds_key "content"
    (JObj [("pageProps", JObj []); ("x", JArr [JNum 1; JObj [("content", JStr "<q>")]])])
    "<q>".
Proof.
  apply (located_fragment_is_a_content_field
           (JObj [("pageProps", JObj []); ("x", JArr [JNum 1; JObj [("content", JStr "<q>")]])])).
  reflexivity.
Defined.

(** X21: an exception in the lookup of the known path ends the search: a
    document that is not an object, or whose [pageProps] or [chapterInfo]
    is there and is not an object, has no fragment, whatever [content] keys
    it holds elsewhere. The structural search is not tried. *)
Theorem no_fallback_after_a_failed_lookup data :
  is_object data = false
  ∨ (∃ pageProps, py_get data "pageProps" (JObj []) = Returned pageProps
                  ∧ (is_object pageProps = false
                     ∨ ∃ chapterInfo,
                         py_get pageProps "chapterInfo" (JObj []) = Returned chapterInfo
                         ∧ is_object chapterInfo = false)) →
  locate_html_content data = JNull.
Proof.
  unfold locate_html_content.
  intros [Hdata|(pageProps & -> & [Hpp|(chapterInfo & Hci & Hobj)])].
  - by destruct data.
  - simpl. by destruct pageProps.
  - simpl. rewrite Hci. simpl. by destruct chapterInfo.
Qed.

Lemma no_fallback_after_a_failed_lookup_witness :
  locate_html_content (JArr [JObj [("content", JStr "<p>")]]) = JNull
  ∧ locate_html_content (JObj [("pageProps", JNull); ("content", JStr "<p>")]) = JNull.
Proof.
  split.
  - apply (no_fallback_after_a_failed_lookup (JArr [JObj [("content", JStr "<p>")]])).
    left. reflexivity.
  - apply (no_fallback_after_a_failed_lookup
             (JObj [("pageProps", JNull); ("content", JStr "<p>")])).
    right. exists JNull. split; [reflexivity|]. left. reflexivity.
Defined.

(** ** Build token *)

Lemma find_build_id_holds d :
  find_build_id d = JNull
  ∨ ∃ s, find_build_id d = JStr s ∧ holds_key "buildId" d s.
Proof.
  induction d as [| | | |items IH|fields IH] using json_ind_nested;
    try (by left).
  - simpl.
    match goal with
    | |- ?search items = _ ∨ _ =>
        enough (search items = JNull
                ∨ ∃ s item, search items = JStr s ∧ item ∈ items
                            ∧ holds_key "buildId" item s)
          as [Hnone|(s & item & Hs & Hin & Hholds)]
    end.
    + by left.
    + right. exists s. split; [exact Hs|]. by eapply holds_key_item.
    + induction IH as [|item rest Hitem _ IHrest]; [by left|]. cbv zeta.
      destruct (truthy (find_build_id item)) eqn:Hfound.
      * destruct Hitem as [Hnone|(s & Hs & Hholds)]; [by rewrite Hnone in Hfound|].
        right. exists s, item. repeat split; [done | by left | done].
      * destruct IHrest as [Hnone|(s & item' & Hs & Hin & Hholds)]; [by left|].
        right. exists s, item'. repeat split; [done | by right | done].
  - simpl.
    match goal with
    | |- ?search fields = _ ∨ _ =>
        enough (search fields = JNull
                ∨ ∃ s, search fields = JStr s
                       ∧ ((("buildId", JStr s) ∈ fields)
                          ∨ ∃ k v, (k, v) ∈ fields ∧ holds_key "buildId" v s))
          as [Hnone|(s & Hs & [Hin|(k & v & Hin & Hholds)])]
    end.
    + by left.
    + right. exists s. split; [exact Hs|]. by apply holds_key_here.
    + right. exists s. split; [exact Hs|]. by eapply holds_key_field.
    + induction IH as [|[k v] rest Hv _ IHrest]; [by left|].
      destruct (String.eqb k "buildId" && is_str v) eqn:Hkey.
      * apply andb_prop in Hkey as [Hk Hstr]. apply String.eqb_eq in Hk as ->.
        destruct v; try discriminate. right. eexists. split; [done|]. left. by left.
      * cbv zeta. simpl in Hv. destruct (truthy (find_build_id v)) eqn:Hfound.
        -- destruct Hv as [Hnone|(s & Hs & Hholds)]; [by rewrite Hnone in Hfound|].
           right. exists s. split; [done|]. right. exists k, v. split; [by left | done].
        -- destruct IHrest as [Hnone|(s & Hs & [Hin|(k' & v' & Hin & Hholds)])];
             [by left | |].
           ++ right. exists s. split; [done|]. left. by right.
           ++ right. exists s. split; [done|]. right. exists k', v'.
              split; [by right | done].
Qed.

(** X22: the build token is [None] or a truthy value, never an empty one;
    it is [None] whenever the page or its script could not be read; and a
    token that is a string is the value of a [buildId] key of the decoded
    script. *)
Theorem build_id_is_none_or_found page :
  get_build_id_from_page page = JNull
  ∨ (truthy (get_build_id_from_page page) = true
     ∧ ∃ data, page = NextData (Some data)
               ∧ ∀ s, get_build_id_from_page page = JStr s →
                      holds_key "buildId" data s).
Proof.
  destruct page as [| |[data|]]; try (by left).
  destruct data as [| | | |?|fields]; try (by left).
  change (get_build_id_from_page (NextData (Some (JObj fields))))
    with (if truthy (default JNull (assoc "buildId" fields))
          then default JNull (assoc "buildId" fields)
          else if truthy (find_build_id (JObj fields))
               then find_build_id (JObj fields) else JNull).
  destruct (truthy (default JNull (assoc "buildId" fields))) eqn:Htop.
  - right. split; [done|]. eexists. split; [done|]. intros s Hs.
    destruct (assoc "buildId" fields) as [v|] eqn:Hv; simpl in *; [|done].
    subst v. by apply holds_key_here, assoc_elem.
  - destruct (truthy (find_build_id (JObj fields))) eqn:Hfound; [|by left].
    right. split; [done|]. eexists. split; [done|]. intros s Hs.
    destruct (find_build_id_holds (JObj fields)) as [Hnone|(s' & Hs' & Hholds)];
      congruence.
Qed.

(** ** The cleaning pipeline *)

Lemma append_String c a b : String c a +:+ b = String c (a +:+ b).
Proof. reflexivity. Qed.

Lemma append_assoc a b c : (a +:+ b) +:+ c = a +:+ (b +:+ c).
Proof.
  induction a as [|x a IH]; [done|]. by rewrite !append_String, IH.
Qed.

Lemma take_append a b : PyPath.take (String.length a) (a +:+ b) = a.
Proof.
  induction a as [|x a IH]; [by destruct b|].
  rewrite append_String. simpl. by rewrite IH.
Qed.

Lemma drop_append a b : PyPath.drop (String.length a) (a +:+ b) = b.
Proof. induction a as [|x a IH]; [done|]. rewrite append_String. simpl. exact IH. Qed.

Lemma rfind_dot_txt a : PyPath.rfind "." (a +:+ ".txt") = Some (String.length a).
Proof.
  induction a as [|x a IH]; [done|]. rewrite append_String. simpl. by rewrite IH.
Qed.

(** The stem and the suffix of a name that ends in [.txt]. *)
Lemma suffix_start_txt a :
  a ≠ "" → PyPath.suffix_start (a +:+ ".txt") = Some (String.length a).
Proof.
  intros Ha. unfold PyPath.suffix_start. rewrite rfind_dot_txt, length_append.
  assert (0 < String.length a)%nat by (destruct a; [done | simpl; lia]).
  assert (Hpos : (0 <? String.length a)%nat = true) by by apply Nat.ltb_lt.
  assert (Hend : (String.length a <? String.length a + String.length ".txt" - 1)%nat = true)
    by (apply Nat.ltb_lt; simpl; lia).
  by rewrite Hpos, Hend.
Qed.

Lemma stem_txt a : a ≠ "" → PyPath.stem (a +:+ ".txt") = a.
Proof. intros Ha. unfold PyPath.stem. by rewrite suffix_start_txt, take_append. Qed.

Lemma suffix_txt a : a ≠ "" → PyPath.suffix (a +:+ ".txt") = ".txt".
Proof. intros Ha. unfold PyPath.suffix. by rewrite suffix_start_txt, drop_append. Qed.

Lemma endswith_append a suf : PyPath.endswith (a +:+ suf) suf = true.
Proof.
  unfold PyPath.endswith. rewrite length_append.
  replace (String.length a + String.length suf - String.length suf)%nat
    with (String.length a) by lia.
  rewrite drop_append, String.eqb_refl, andb_true_r. apply Nat.leb_le. lia.
Qed.

Lemma append_nonempty a b : b ≠ "" → a +:+ b ≠ "".
Proof. intros Hb. destruct a; [done|]. by rewrite append_String. Qed.

(** X23: a raw file [x_raw.txt] is cleaned into [x_cleaned.txt], and so is
    a file [x.txt] whose name has no [_raw] at the end: two such files of
    one directory are written to the same cleaned file, the later over the
    earlier. *)
Theorem raw_and_plain_names_collide x :
  x ≠ "" →
  PyPath.endswith x "_raw" = false →
  cleaned_name (x +:+ "_raw.txt") = x +:+ "_cleaned.txt"
  ∧ cleaned_name (x +:+ ".txt") = x +:+ "_cleaned.txt".
Proof.
  intros Hx Hplain. split.
  - change "_raw.txt" with ("_raw" +:+ ".txt"). rewrite <- append_assoc.
    unfold cleaned_name.
    rewrite stem_txt, suffix_txt by by apply append_nonempty.
    rewrite endswith_append, length_append. simpl String.length.
    replace (String.length x + 4 - 4)%nat with (String.length x) by lia.
    by rewrite take_append, append_assoc.
  - unfold cleaned_name. rewrite stem_txt, suffix_txt, Hplain by done.
    by rewrite append_assoc.
Qed.

Lemma raw_and_plain_names_collide_witness :
  cleaned_name "MBB05_GEN_raw.txt" = "MBB05_GEN_cleaned.txt"
  ∧ cleaned_name "MBB05_GEN.txt" = "MBB05_GEN_cleaned.txt".
Proof.
  apply (raw_and_plain_names_collide "MBB05_GEN"); [discriminate | reflexivity].
Defined.



Lemma replace_from_absent c old new s :
  PyStr.all (λ a, negb (Ascii.eqb a c)) s = true →
  replace_from (String c old) new 0 s = s.
Proof.
  induction s as [|a s IH]; [done|]. simpl. intros Hall.
  apply andb_true_iff in Hall as [Ha Hall].
  destruct (ascii_dec c a) as [->|_].
  - by rewrite Ascii.eqb_refl in Ha.
  - by rewrite IH.
Qed.

(** X25: a replacement with no dollar sign and no [<] in it has no
    placeholder and is left as it is. *)
Theorem plain_replacement_is_unchanged replace :
  PyStr.all (λ c, negb (Ascii.eqb c "$")) replace = true →
  PyStr.all (λ c, negb (Ascii.eqb c "<")) replace = true →
  apply_placeholders replace = replace.
Proof.
  intros Hdollar Hangle. unfold apply_placeholders.
  rewrite (replace_from_absent "<"%char "space>"%string " "%string replace Hangle).
  by apply (replace_from_absent "$"%char ""%string).
Qed.

Lemma plain_replacement_is_unchanged_witness :
  apply_placeholders "\1, \2" = "\1, \2".
Proof. apply plain_replacement_is_unchanged; reflexivity. Defined.

(** ** Artifact writer *)

(** The verses the extractor returns for a fragment, whatever the parser
    made of it, are trimmed and not empty. *)
Lemma extracted_records_trimmed BeautifulSoup html_content verses :
  extract_verses_from_chapter_html BeautifulSoup html_content = Returned verses →
  Forall (λ v, PyStr.nonempty (text v) = true ∧ PyStr.strip (text v) = text v) verses.
Proof.
  unfold extract_verses_from_chapter_html.
  destruct (BeautifulSoup html_content) as [fragment|]; simpl; [|done].
  intros [= <-]. apply Forall_forall. intros r Hr.
  rewrite extract_verses_below in Hr.
  apply list_elem_of_In, in_flat_map in Hr as (n & _ & Hr).
  apply list_elem_of_In, verses_below_read in Hr as [v Hv].
  by destruct (read_verse_trimmed v r Hv) as (? & ? & _).
Qed.

(** X26: the rows of the table of a book that is accumulated from empty
    lists: there is at least one when a chapter was stored, and every row
    carries the book code, a chapter of the list and a text that is trimmed
    and not empty. *)
Theorem table_rows_are_complete
    net BeautifulSoup build_id locale version_id version_code route book
    sleep_between chapters n :
  let st := (value (chapters_loop net BeautifulSoup build_id locale version_id
                      version_code route book sleep_between chapters empty_book n)).2 in
  (book_out st ≠ [] → csv_rows (book_out st) ≠ [])
  ∧ Forall (λ r, row_book r = book ∧ row_chapter r ∈ chapters
                 ∧ PyStr.nonempty (row_text r) = true
                 ∧ PyStr.strip (row_text r) = row_text r)
      (csv_rows (book_out st)).
Proof.
  cbv zeta.
  destruct (chapters_loop_turns net BeautifulSoup build_id locale version_id
              version_code route book sleep_between chapters empty_book n)
    as (new & _ & Hout & _ & _ & _ & Hnew & Hsub & _).
  simpl in Hout. rewrite Hout. clear Hout. split.
  - destruct new as [|e new]; [done|]. intros _.
    apply Forall_inv in Hnew as (_ & _ & _ & Hverses & _).
    unfold csv_rows. simpl. by destruct (entry_verses e).
  - apply Forall_forall. intros r Hr.
    apply list_elem_of_In, in_flat_map in Hr as (e & He & Hr).
    apply list_elem_of_In in He.
    apply in_map_iff in Hr as (v & <- & Hv). apply list_elem_of_In in Hv. simpl.
    rewrite Forall_forall in Hnew.
    destruct (Hnew e He) as (chapter & Hbook & Hchapter & _ & (html & Hhtml) & _).
    split; [done|]. split.
    + apply (elem_of_sublist (map entry_chapter new)); [|done].
      by apply list_elem_of_fmap_2.
    + pose proof (extracted_records_trimmed _ _ _ Hhtml) as Htrim.
      rewrite Forall_forall in Htrim. by apply Htrim.
Qed.

(** ** The loop over the books *)

Section ScrapeVersionFacts.

Variable net : nat → response.
Variable BeautifulSoup : json → py_result (list node).
Variable unescape : string → string.
Variable makedirs : bool.
Variable opens : nat → string → bool.
Variable writes : nat → artifact → bool.
Variables version_id version_code build_id locale route : string.
Variable sleep_between : Q.

Local Abbreviation catalog := (catalog_url version_id).
Local Abbreviation books_turns :=
  (books_loop net BeautifulSoup unescape opens writes version_id version_code
     build_id locale route sleep_between).
Local Abbreviation chapters_of book :=
  (chapters_loop net BeautifulSoup build_id locale version_id version_code route
     book sleep_between).
Local Abbreviation written now book st :=
  (write_book unescape opens writes version_code now book st).
Local Abbreviation left now book st :=
  {| result_book := book; result_state := st; result_files := (written now book st).1 |}.

(** The writer ends early or not at all: it never ends the run. *)
Lemma write_book_ending now book st : (written now book st).2 ≠ Some AllDone.
Proof.
  unfold write_book. destruct (book_out st); [done|].
  repeat match goal with
         | |- context [if negb ?b then _ else _] => destruct b; simpl
         | |- context [match ?r with Returned _ => _ | Raised _ => _ end] => destruct r
         end; done.
Qed.

Lemma write_book_files now book st :
  files_of_a_book version_code (left now book st).
Proof.
  unfold files_of_a_book, files_of, write_book. simpl.
  destruct (book_out st) as [|e entries] eqn:Hout;
    [split; [done|]; exists ""; apply prefix_nil|].
  split; [done|].
  destruct (opens now _ && writes now (JsonFile _ _)); simpl;
    [|exists ""; apply prefix_nil].
  destruct (opens now _ && writes now (CsvFile _ _)); simpl;
    [|exists ""; by apply (prefix_app [_] [] [_; _]), prefix_nil].
  destruct (opens now _); simpl;
    [|exists ""; by apply (prefix_app [_; _] [] [_]), prefix_nil].
  destruct (py_join newline (raw_html_accumulator st)) as [joined|e']; simpl;
    [|by exists ""].
  destruct (writes now (RawFile _ _)); simpl;
    [by exists (unescape joined)|].
  exists "". by apply (prefix_app [_; _] [] [_]), prefix_nil.
Qed.

Lemma write_book_all_files now book st :
  (written now book st).2 = None →
  all_files_of_a_book unescape version_code (left now book st).
Proof.
  unfold all_files_of_a_book, files_of, write_book. simpl.
  destruct (book_out st) as [|e entries] eqn:Hout; [done|].
  destruct (opens now _ && writes now (JsonFile _ _)); simpl; [|done].
  destruct (opens now _ && writes now (CsvFile _ _)); simpl; [|done].
  destruct (opens now _); simpl; [|done].
  destruct (py_join newline (raw_html_accumulator st)) as [joined|e']; simpl; [|done].
  destruct (writes now (RawFile _ _)); simpl; [|done].
  intros _. by exists joined.
Qed.

(** One turn of the loop over the books. *)
Lemma books_loop_cons book rest results n :
  books_turns (book :: rest) results n =
  let request := EvGet catalog [] (net n) in
  match fetch_books_and_chapters (net n) with
  | Raised e => ((Failed e, results), S n, [request])
  | Returned books =>
      match List.find (has_code book) books with
      | None => ((BookNotFound, results), S n, [request])
      | Some book_meta =>
          let r := chapters_of book (chapters book_meta) empty_book (S n) in
          match (value r).1 with
          | Some (Uncaught e) => ((Failed e, results), sent r, request :: events r)
          | _ =>
              let results' := results ++ [left (sent r) book (value r).2] in
              match (written (sent r) book (value r).2).2 with
              | Some ending => ((ending, results'), sent r, request :: events r)
              | None => after (request :: events r) (books_turns rest results' (sent r))
              end
          end
      end
  end.
Proof.
  cbn [books_loop].
  unfold request_books_and_chapters, requests_sent, mbind, M_bind, http_get, mret, M_ret.
  cbv zeta. destruct (fetch_books_and_chapters (net n)) as [books|e]; [|done].
  destruct (List.find (has_code book) books) as [book_meta|]; [|done].
  destruct (chapters_of book (chapters book_meta) empty_book (S n))
    as [[[exit st] n'] evs].
  unfold after, value, sent, events. cbn [fst snd].
  destruct exit as [[|e]|].
  - destruct (written n' book st) as [files [ending|]]; cbn [fst snd];
      rewrite ?app_nil_r; try reflexivity.
    by destruct (books_turns rest _ n') as [[? ?] ?].
  - by rewrite !app_nil_r.
  - destruct (written n' book st) as [files [ending|]]; cbn [fst snd];
      rewrite ?app_nil_r; try reflexivity.
    by destruct (books_turns rest _ n') as [[? ?] ?].
Qed.

(** No request for a chapter goes to the metadata endpoint. *)
Lemma target_is_not_the_catalog book chapter url params :
  construct_json_url build_id locale version_id book chapter version_code route
  = Returned (url, params) →
  String.eqb url catalog = false.
Proof.
  unfold construct_json_url, catalog_url. intros [= <- _].
  apply String.eqb_neq.
  change ("https://www.bible.com/_next/data/" +:+ ?x)
    with ("https://www.bible.com/" +:+ String "_" ("next/data/" +:+ x)).
  change ("https://www.bible.com/api/bible/version/" +:+ ?x)
    with ("https://www.bible.com/" +:+ String "a" ("pi/bible/version/" +:+ x)).
  intros H. apply append_cancel_l in H. discriminate H.
Qed.

Lemma fetch_attempts_requests url params backoff attempts n other :
  String.eqb url other = false →
  List.filter (is_request_to other)
    (events (fetch_attempts net url params backoff attempts n)) = [].
Proof.
  intros Hother. revert n. induction attempts as [|attempt rest IH]; intros n; [done|].
  rewrite fetch_attempts_cons.
  destruct (net n) as [|status [data|]]; unfold after, events; simpl;
    rewrite Hother; try done; apply IH.
Qed.

Lemma chapters_loop_requests book chapters st n :
  List.filter (is_request_to catalog) (events (chapters_of book chapters st n)) = [].
Proof.
  revert st n. induction chapters as [|chapter rest IH]; intros st n; [done|].
  rewrite chapters_loop_cons.
  assert (Hbody : List.filter (is_request_to catalog)
            (events (chapter_body net BeautifulSoup build_id locale version_id
                       version_code route book sleep_between chapter st n)) = []).
  { destruct (construct_json_url build_id locale version_id book chapter
                version_code route) as [[url params]|e] eqn:Htarget.
    2: { unfold construct_json_url in Htarget. discriminate Htarget. }
    destruct (fetch_json_with_retries net url params 3 5 n) as [[data n2] evs2] eqn:Hfetch.
    rewrite (chapter_body_fetched _ _ _ _ _ _ _ _ _ _ _ _ _ _ _ _ _ Htarget Hfetch).
    pose proof (fetch_attempts_requests url params 5 (py_range 3) n catalog
                  (target_is_not_the_catalog _ _ _ _ Htarget)) as Hevs.
    fold (fetch_json_with_retries net url params 3 5) in Hevs.
    rewrite Hfetch in Hevs. unfold events in Hevs. simpl in Hevs.
    repeat match goal with
           | |- context [if ?b then _ else _] => destruct b
           | |- context [match ?r with Returned _ => _ | Raised _ => _ end] => destruct r
           | |- context [match ?l with [] => _ | _ :: _ => _ end] => destruct l
           end; unfold events; simpl; by rewrite List.filter_app, Hevs. }
  destruct (chapter_body net BeautifulSoup build_id locale version_id version_code
              route book sleep_between chapter st n) as [[[[exit|] st'] n'] evs];
    unfold after, events in *; simpl in *.
  - by rewrite app_nil_r.
  - by rewrite List.filter_app, Hbody, IH.
Qed.

(** What the loop over the books keeps, however it ends. *)
Lemma books_loop_turns books results n :
  let r := books_turns books results n in
  ∃ new,
    (value r).2 = results ++ new
    ∧ map result_book new `prefix_of` books
    ∧ Forall (files_of_a_book version_code) new
    ∧ ((value r).1 = AllDone →
       map result_book new = books
       ∧ Forall (all_files_of_a_book unescape version_code) new
       ∧ length (List.filter (is_request_to catalog) (events r)) = length books).
Proof.
  revert results n. induction books as [|book rest IH]; intros results n.
  - exists []. simpl. rewrite app_nil_r. by repeat split.
  - cbv zeta. rewrite books_loop_cons. cbv zeta.
    assert (Hstop : ∀ (ending : run_end) k evs,
              ending ≠ AllDone →
              ∃ new,
                (value ((ending, results), k, evs)).2 = results ++ new
                ∧ map result_book new `prefix_of` book :: rest
                ∧ Forall (files_of_a_book version_code) new
                ∧ ((value ((ending, results), k, evs)).1 = AllDone →
                   map result_book new = book :: rest
                   ∧ Forall (all_files_of_a_book unescape version_code) new
                   ∧ length (List.filter (is_request_to catalog)
                               (events ((ending, results), k, evs)))
                     = length (book :: rest))).
    { intros ending k evs Hending. exists []. simpl. rewrite app_nil_r.
      split; [done|]. split; [apply prefix_nil|]. by split. }
    destruct (fetch_books_and_chapters (net n)) as [books|e]; [|by apply Hstop].
    destruct (List.find (has_code book) books) as [book_meta|]; [|by apply Hstop].
    pose proof (chapters_loop_requests book (chapters book_meta) empty_book (S n)) as Hnone.
    set (r := chapters_of book (chapters book_meta) empty_book (S n)) in *.
    set (res := left (sent r) book (value r).2).
    assert (Hres : files_of_a_book version_code res) by apply write_book_files.
    pose proof (write_book_ending (sent r) book (value r).2) as Hending.
    pose proof (write_book_all_files (sent r) book (value r).2) as Hall.
    fold res in Hall.
    set (turn := match (written (sent r) book (value r).2).2 with
                 | Some ending => ((ending, results ++ [res]), sent r,
                                   EvGet catalog [] (net n) :: events r)
                 | None => after (EvGet catalog [] (net n) :: events r)
                             (books_turns rest (results ++ [res]) (sent r))
                 end).
    assert (Hmore : ∃ new,
              (value turn).2 = results ++ new
              ∧ map result_book new `prefix_of` book :: rest
              ∧ Forall (files_of_a_book version_code) new
              ∧ ((value turn).1 = AllDone →
                 map result_book new = book :: rest
                 ∧ Forall (all_files_of_a_book unescape version_code) new
                 ∧ length (List.filter (is_request_to catalog) (events turn))
                   = length (book :: rest))).
    { subst turn. destruct (written (sent r) book (value r).2).2 as [ending|].
      - exists [res]. split; [done|]. split.
        { by apply (prefix_app [book] [] rest), prefix_nil. }
        split; [by constructor|]. simpl. intros ->. by destruct Hending.
      - destruct (IH (results ++ [res]) (sent r)) as (new & Hnew & Hprefix & Hfiles & Hdone).
        exists (res :: new). unfold after, value, events in *. cbn [fst snd] in *.
        rewrite Hnew, <- app_assoc. split; [done|]. split.
        { simpl. by apply (prefix_app [book]). }
        split; [by constructor|]. intros Hend.
        destruct (Hdone Hend) as (Hbooks & Hallnew & Hcount). simpl. rewrite Hbooks.
        split; [done|]. split; [constructor; [by apply Hall | done]|].
        rewrite String.eqb_refl. simpl. rewrite List.filter_app, Hnone. simpl.
        by rewrite Hcount. }
    destruct (value r).1 as [[|e]|]; [exact Hmore | by apply Hstop | exact Hmore].
Qed.

(** X27: the books that have had their turn when the run ends, however it
    ends, are the first books asked for, in order. Each of them left no
    file when it stored no chapter, and else the first of its three files,
    in the order JSON, CSV, raw text, named after the version code and the
    book code. A run that goes to the end gives every book its turn, and
    every book that stored a chapter left its three files. *)
Theorem books_have_their_turn_in_order books n :
  let r := scrape_version net BeautifulSoup unescape makedirs opens writes
             version_id version_code build_id locale route sleep_between books n in
  map result_book (value r).2 `prefix_of` books
  ∧ Forall (files_of_a_book version_code) (value r).2
  ∧ ((value r).1 = AllDone →
     map result_book (value r).2 = books
     ∧ Forall (all_files_of_a_book unescape version_code) (value r).2).
Proof.
  cbv zeta. unfold scrape_version, request_books_and_chapters, mbind, M_bind,
    http_get, mret, M_ret.
  destruct makedirs; simpl.
  2: { unfold value. simpl. split; [apply prefix_nil|]. by split. }
  destruct (fetch_books_and_chapters (net n)) as [books'|e].
  - destruct (books_loop_turns books [] (S n)) as (new & Hnew & Hprefix & Hfiles & Hdone).
    cbv zeta in *. destruct (books_turns books [] (S n)) as [[[ending results] n'] evs].
    unfold value in *. cbn [fst snd] in *. subst results.
    split; [done|]. split; [done|]. intros Hend. by destruct (Hdone Hend) as (? & ? & _).
  - unfold value. simpl. split; [apply prefix_nil|]. by split.
Qed.

(** X28: a run that goes to the end has asked for the metadata once to
    display the catalogue and once more for every book: one plus the number
    of books requests go to the metadata endpoint. *)
Theorem catalog_is_requested_for_every_book books n :
  let r := scrape_version net BeautifulSoup unescape makedirs opens writes
             version_id version_code build_id locale route sleep_between books n in
  (value r).1 = AllDone →
  length (List.filter (is_request_to catalog) (events r)) = S (length books).
Proof.
  cbv zeta. unfold scrape_version, request_books_and_chapters, mbind, M_bind,
    http_get, mret, M_ret.
  destruct makedirs; simpl; [|done].
  destruct (fetch_books_and_chapters (net n)) as [books'|e]; [|done].
  destruct (books_loop_turns books [] (S n)) as (new & _ & _ & _ & Hdone).
  cbv zeta in *. destruct (books_turns books [] (S n)) as [[[ending results] n'] evs].
  unfold value, events in *. cbn [fst snd] in *. intros Hend.
  destruct (Hdone Hend) as (_ & _ & Hcount). simpl. rewrite String.eqb_refl. simpl.
  by rewrite Hcount.
Qed.

(** A catalogue that has no entry for a book is searched in vain. *)
Lemma find_has_code_none book catalog_books :
  existsb (has_code book) catalog_books = false →
  List.find (has_code book) catalog_books = None.
Proof.
  induction catalog_books as [|b rest' IH]; [done|]. simpl.
  destruct (has_code book b); [done|]. exact IH.
Qed.

Lemma books_loop_missing book books results n :
  book ∈ books →
  (∀ k, lists_book book (net k) = false) →
  let r := books_turns books results n in
  (value r).1 ≠ AllDone
  ∧ ∃ new, (value r).2 = results ++ new ∧ book ∉ map result_book new.
Proof.
  intros Hin Hnet. revert results n.
  induction books as [|b rest IH]; intros results n; [by apply elem_of_nil in Hin|].
  cbv zeta. rewrite books_loop_cons. cbv zeta.
  assert (Hstop : ∀ (ending : run_end) k evs,
            ending ≠ AllDone →
            (value ((ending, results), k, evs)).1 ≠ AllDone
            ∧ ∃ new, (value ((ending, results), k, evs)).2 = results ++ new
                     ∧ book ∉ map result_book new).
  { intros ending k evs Hending. split; [done|]. exists []. simpl.
    rewrite app_nil_r. split; [done|]. apply not_elem_of_nil. }
  pose proof (Hnet n) as Hn. unfold lists_book in Hn.
  destruct (fetch_books_and_chapters (net n)) as [catalog_books|e]; [|by apply Hstop].
  destruct (decide (b = book)) as [->|Hb].
  { rewrite (find_has_code_none _ _ Hn). by apply Hstop. }
  apply elem_of_cons in Hin as [Heq|Hin]; [congruence|].
  destruct (List.find (has_code b) catalog_books) as [book_meta|]; [|by apply Hstop].
  set (r := chapters_of b (chapters book_meta) empty_book (S n)).
  set (res := left (sent r) b (value r).2).
  pose proof (write_book_ending (sent r) b (value r).2) as Hending.
  set (turn := match (written (sent r) b (value r).2).2 with
               | Some ending => ((ending, results ++ [res]), sent r,
                                 EvGet catalog [] (net n) :: events r)
               | None => after (EvGet catalog [] (net n) :: events r)
                           (books_turns rest (results ++ [res]) (sent r))
               end).
  assert (Hmore : (value turn).1 ≠ AllDone
                  ∧ ∃ new, (value turn).2 = results ++ new
                           ∧ book ∉ map result_book new).
  { assert (Hres : book ∉ map result_book [res]).
    { simpl. intros Hres. apply list_elem_of_singleton in Hres. congruence. }
    subst turn. destruct (written (sent r) b (value r).2).2 as [ending|].
    - split; [simpl; by intros -> |]. by exists [res].
    - destruct (IH Hin (results ++ [res]) (sent r)) as (Hend & new & Hnew & Hnotin).
      unfold after, value in *. cbn [fst snd] in *. split; [done|].
      exists (res :: new). rewrite Hnew, <- app_assoc. split; [done|].
      simpl. intros Hcons. apply elem_of_cons in Hcons as [Heq|Hrest]; [congruence|done]. }
  destruct (value r).1 as [[|e]|]; [exact Hmore | by apply Hstop | exact Hmore].
Qed.

(** X29: a book that the metadata never lists stops the run: a run that is
    asked for it does not go to the end, and the book gets no result. *)
Theorem unlisted_book_stops_the_run book books n :
  book ∈ books →
  (∀ k, lists_book book (net k) = false) →
  let r := scrape_version net BeautifulSoup unescape makedirs opens writes
             version_id version_code build_id locale route sleep_between books n in
  (value r).1 ≠ AllDone ∧ book ∉ map result_book (value r).2.
Proof.
  intros Hin Hnet. cbv zeta.
  unfold scrape_version, request_books_and_chapters, mbind, M_bind, http_get, mret, M_ret.
  destruct makedirs; simpl.
  2: { unfold value. simpl. split; [done|]. apply not_elem_of_nil. }
  destruct (fetch_books_and_chapters (net n)) as [books'|e].
  - destruct (books_loop_missing book books [] (S n) Hin Hnet) as (Hend & new & Hnew & Hnotin).
    cbv zeta in *. destruct (books_turns books [] (S n)) as [[[ending results] n'] evs].
    unfold value in *. cbn [fst snd] in *. by subst results.
  - unfold value. simpl. split; [done|]. apply not_elem_of_nil.
Qed.

End ScrapeVersionFacts.

Lemma books_have_their_turn_in_order_witness :
  map result_book (value (demo_run steady_site ["GEN"] 0%nat)).2 = ["GEN"]
  ∧ Forall (all_files_of_a_book (λ s, s) "MBB05")
      (value (demo_run steady_site ["GEN"] 0%nat)).2.
Proof.
  apply (books_have_their_turn_in_order steady_site one_verse_parser (λ s, s)
           true (λ _ _, true) (λ _ _, true)
           "144" "MBB05" "b1" "en-GB" "bible" (4 # 5) ["GEN"] 0%nat).
  vm_compute. reflexivity.
Defined.

Lemma catalog_is_requested_for_every_book_witness :
  length (List.filter (is_request_to (catalog_url "144"))
            (events (demo_run steady_site ["GEN"] 0%nat))) = 2%nat.
Proof.
  apply (catalog_is_requested_for_every_book steady_site one_verse_parser (λ s, s)
           true (λ _ _, true) (λ _ _, true)
           "144" "MBB05" "b1" "en-GB" "bible" (4 # 5) ["GEN"] 0%nat).
  vm_compute. reflexivity.
Defined.

Lemma unlisted_book_stops_the_run_witness :
  (value (demo_run steady_site ["GEN"; "EXO"] 0%nat)).1 ≠ AllDone
  ∧ "EXO" ∉ map result_book (value (demo_run steady_site ["GEN"; "EXO"] 0%nat)).2.
Proof.
  apply (unlisted_book_stops_the_run steady_site one_verse_parser (λ s, s)
           true (λ _ _, true) (λ _ _, true)
           "144" "MBB05" "b1" "en-GB" "bible" (4 # 5) "EXO" ["GEN"; "EXO"] 0%nat).
  - do 2 constructor.
  - intros [|[|k]]; reflexivity.
Defined.
